(** * Squashfs mount-time initialisation: [kernel/fs/squashfs/super.c]

    A shallow embedding of [supported_squashfs_filesystem],
    [squashfs_fill_super], [squashfs_statfs] and [squashfs_put_super],
    and the properties of the mount protocol proved about them.

    Integers are [Z] with the conversions of the C code written out;
    pointers are [N] (an [unsigned long]), so that the kernel's
    error-encoded pointers keep their meaning.  The kernel allocator is
    an explicit component of the state: a log of allocation and release
    events from which the liveness of a block is computed, and a flag
    raised by a release of a block that is not live or an access
    through a released pointer. *)

From Stdlib Require Import ZArith List Bool Lia.
Import ListNotations.
Local Open Scope Z_scope.

(** ** Fixed-width integers *)

Definition u16 (x : Z) : Z := x mod 2 ^ 16.
Definition u32 (x : Z) : Z := x mod 2 ^ 32.
Definition u64 (x : Z) : Z := x mod 2 ^ 64.

(** Conversion of an unsigned value to the signed type of the same
    width (two's complement, as gcc does it). *)
Definition s16 (x : Z) : Z :=
  let v := u16 x in if v <? 2 ^ 15 then v else v - 2 ^ 16.
Definition s64 (x : Z) : Z :=
  let v := u64 x in if v <? 2 ^ 63 then v else v - 2 ^ 64.

(** The on-disk fields are little-endian; once the bytes are read the
    conversion yields the unsigned value of the field. *)
Definition le16_to_cpu : Z -> Z := u16.
Definition le32_to_cpu : Z -> Z := u32.
Definition le64_to_cpu : Z -> Z := u64.

Arguments u16 : simpl never.
Arguments u32 : simpl never.
Arguments u64 : simpl never.
Arguments s16 : simpl never.
Arguments s64 : simpl never.
Arguments le16_to_cpu : simpl never.
Arguments le32_to_cpu : simpl never.
Arguments le64_to_cpu : simpl never.

(** ** Kernel constants and error pointers

    [errno-base.h] and [err.h] of the kernel. *)

Definition EINVAL : Z := 22.
Definition ENOMEM : Z := 12.
Definition MAX_ERRNO : Z := 4095.
Definition NULL : N := 0.
Definition MS_RDONLY : Z := 1.

Definition ERR_PTR (error : Z) : N := Z.to_N (u64 error).
Definition IS_ERR (ptr : N) : bool := 2 ^ 64 - MAX_ERRNO <=? Z.of_N ptr.
Definition PTR_ERR (ptr : N) : Z := s64 (Z.of_N ptr).

(** ** The format header

    [squashfs_fs.h] is not among the sources: the names [super.c] takes
    from it are the fields of this record, and every definition below
    is parameterised by it. *)

Record squashfs_fs_h := {
  SQUASHFS_MAGIC : Z;
  SQUASHFS_MAJOR : Z;
  SQUASHFS_MINOR : Z;
  ZLIB_COMPRESSION : Z;
  SQUASHFS_START : Z;
  SQUASHFS_INVALID_BLK : Z;
  SQUASHFS_FILE_SIZE : Z;
  SQUASHFS_FILE_LOG : Z;
  SQUASHFS_METADATA_SIZE : Z;
  SQUASHFS_NAME_LEN : Z;
  SQUASHFS_INODE_OFFSET : Z -> Z;
  sizeof_squashfs_super_block : Z
}.

(** Modelled from the spec: the header [squashfs_fs.h] is missing, and
    this instance gives its names the values of the 4.0 format (major 4
    and minor 0 supported, a 131072-byte block with block_log 17
    accepted, the offset of an inode locator in its low 16 bits).  It is
    used to run the model on concrete inputs. *)
Definition squashfs_4_0 : squashfs_fs_h := {|
  SQUASHFS_MAGIC := 0x73717368;
  SQUASHFS_MAJOR := 4;
  SQUASHFS_MINOR := 0;
  ZLIB_COMPRESSION := 1;
  SQUASHFS_START := 0;
  SQUASHFS_INVALID_BLK := -1;
  SQUASHFS_FILE_SIZE := 131072;
  SQUASHFS_FILE_LOG := 17;
  SQUASHFS_METADATA_SIZE := 8192;
  SQUASHFS_NAME_LEN := 256;
  SQUASHFS_INODE_OFFSET := fun a => Z.land a 0xffff;
  sizeof_squashfs_super_block := 96
|}.

(** ** [supported_squashfs_filesystem] (super.c, lines 48-65)

    The three arguments are [short]; the comparisons are made on their
    values. *)

Definition supported_squashfs_filesystem (H : squashfs_fs_h)
    (major minor comp : Z) : Z :=
  if major <? SQUASHFS_MAJOR H then - EINVAL
  else if (SQUASHFS_MAJOR H <? major) || (SQUASHFS_MINOR H <? minor)
  then - EINVAL
  else if negb (comp =? ZLIB_COMPRESSION H) then - EINVAL
  else 0.

(** ** The on-disk superblock *)

Module Disk.
(** Modelled from the spec: [struct squashfs_super_block] is declared in
    [squashfs_fs.h], which is missing.  The fields are those super.c
    reads; each holds the raw little-endian value of the width section 3
    of the specification gives it, decoded where super.c decodes it. *)
Record squashfs_super_block := {
  s_magic : Z;
  inodes : Z;
  block_size : Z;
  fragments : Z;
  compression : Z;
  block_log : Z;
  flags : Z;
  no_ids : Z;
  s_major : Z;
  s_minor : Z;
  root_inode : Z;
  bytes_used : Z;
  id_table_start : Z;
  xattr_table_start : Z;
  inode_table_start : Z;
  directory_table_start : Z;
  fragment_table_start : Z;
  lookup_table_start : Z
}.
End Disk.

(** ** The kernel allocator

    Every block the mount obtains is recorded with the primitive that
    produced it and what it is for.  Blocks are numbered in allocation
    order and a number is never handed out twice, so a stale pointer is
    always recognised. *)

Inductive allocator := Kmalloc | Vmalloc | Cache | Inode | Dentry.

Inductive kind :=
| K_msblk | K_workspace | K_sblk | K_block_cache | K_read_page
| K_id_table | K_fragment_cache | K_fragment_index
| K_inode_lookup_table | K_meta_index | K_root_inode | K_root_dentry.

Inductive event :=
| Alloc (f : allocator) (k : kind) (p : N)
| Free (f : allocator) (p : N).

Definition allocator_eqb (f g : allocator) : bool :=
  match f, g with
  | Kmalloc, Kmalloc | Vmalloc, Vmalloc | Cache, Cache
  | Inode, Inode | Dentry, Dentry => true
  | _, _ => false
  end.

Definition kind_eqb (j k : kind) : bool :=
  match j, k with
  | K_msblk, K_msblk | K_workspace, K_workspace | K_sblk, K_sblk
  | K_block_cache, K_block_cache | K_read_page, K_read_page
  | K_id_table, K_id_table | K_fragment_cache, K_fragment_cache
  | K_fragment_index, K_fragment_index
  | K_inode_lookup_table, K_inode_lookup_table
  | K_meta_index, K_meta_index | K_root_inode, K_root_inode
  | K_root_dentry, K_root_dentry => true
  | _, _ => false
  end.

(** The program points of [squashfs_fill_super]: one per guarded
    statement, plus its three labels and the state after [return]. *)
Inductive label :=
| alloc_msblk | alloc_workspace | alloc_sblk | read_superblock
| check_magic | check_supported | check_bytes_used | check_block_size
| check_block_log | check_root_inode | populate
| init_block_cache | alloc_read_page | load_id_table | test_fragments
| init_fragment_cache | load_fragment_index
| allocate_lookup_table | load_inode_lookup_table
| allocate_root | read_root_inode | alloc_root_dentry
| failed_mount | failure | returned.

(** [struct super_block], the fields [super.c] touches.  [s_op] and
    [s_export_op] are [true] when they point to the squashfs operation
    tables.  [s_maxbytes] and the three mutexes are not modelled: nothing
    below reads them. *)
Record super_block := {
  s_fs_info : N;
  s_magic : Z;
  s_flags : Z;
  s_op : bool;
  s_export_op : bool;
  s_root : N
}.

Definition set_s_fs_info (v : N) (x : super_block) : super_block :=
  {| s_fs_info := v; s_magic := s_magic x; s_flags := s_flags x;
     s_op := s_op x; s_export_op := s_export_op x; s_root := s_root x |}.
Definition set_s_magic (v : Z) (x : super_block) : super_block :=
  {| s_fs_info := s_fs_info x; s_magic := v; s_flags := s_flags x;
     s_op := s_op x; s_export_op := s_export_op x; s_root := s_root x |}.
Definition set_s_flags (v : Z) (x : super_block) : super_block :=
  {| s_fs_info := s_fs_info x; s_magic := s_magic x; s_flags := v;
     s_op := s_op x; s_export_op := s_export_op x; s_root := s_root x |}.
Definition set_s_op (v : bool) (x : super_block) : super_block :=
  {| s_fs_info := s_fs_info x; s_magic := s_magic x; s_flags := s_flags x;
     s_op := v; s_export_op := s_export_op x; s_root := s_root x |}.
Definition set_s_export_op (v : bool) (x : super_block) : super_block :=
  {| s_fs_info := s_fs_info x; s_magic := s_magic x; s_flags := s_flags x;
     s_op := s_op x; s_export_op := v; s_root := s_root x |}.
Definition set_s_root (v : N) (x : super_block) : super_block :=
  {| s_fs_info := s_fs_info x; s_magic := s_magic x; s_flags := s_flags x;
     s_op := s_op x; s_export_op := s_export_op x; s_root := v |}.

(** Modelled from the spec: [struct squashfs_sb_info], the mount state
    [sb->s_fs_info] points to, is declared in [squashfs_fs_sb.h], which
    is missing.  The fields are those super.c uses, [stream_workspace]
    being [stream.workspace]; [bytes_used] is a signed 64-bit integer
    (line 152 tests its sign), [block_size] and [inodes] are unsigned
    32-bit and [block_log] unsigned 16-bit integers, the others
    pointers or integers that are only stored. *)
Record squashfs_sb_info := {
  devblksize : Z;
  devblksize_log2 : Z;
  block_cache : N;
  fragment_cache : N;
  read_page : N;
  id_table : N;
  fragment_index : N;
  meta_index : N;
  stream_workspace : N;
  inode_lookup_table : N;
  inode_table : Z;
  directory_table : Z;
  block_size : Z;
  block_log : Z;
  bytes_used : Z;
  inodes : Z
}.

Definition set_devblksize (v : Z) (x : squashfs_sb_info) : squashfs_sb_info :=
  {| devblksize := v; devblksize_log2 := devblksize_log2 x;
     block_cache := block_cache x; fragment_cache := fragment_cache x;
     read_page := read_page x; id_table := id_table x;
     fragment_index := fragment_index x; meta_index := meta_index x;
     stream_workspace := stream_workspace x;
     inode_lookup_table := inode_lookup_table x;
     inode_table := inode_table x; directory_table := directory_table x;
     block_size := block_size x; block_log := block_log x;
     bytes_used := bytes_used x; inodes := inodes x |}.
Definition set_devblksize_log2 (v : Z) (x : squashfs_sb_info) : squashfs_sb_info :=
  {| devblksize := devblksize x; devblksize_log2 := v;
     block_cache := block_cache x; fragment_cache := fragment_cache x;
     read_page := read_page x; id_table := id_table x;
     fragment_index := fragment_index x; meta_index := meta_index x;
     stream_workspace := stream_workspace x;
     inode_lookup_table := inode_lookup_table x;
     inode_table := inode_table x; directory_table := directory_table x;
     block_size := block_size x; block_log := block_log x;
     bytes_used := bytes_used x; inodes := inodes x |}.
Definition set_block_cache (v : N) (x : squashfs_sb_info) : squashfs_sb_info :=
  {| devblksize := devblksize x; devblksize_log2 := devblksize_log2 x;
     block_cache := v; fragment_cache := fragment_cache x;
     read_page := read_page x; id_table := id_table x;
     fragment_index := fragment_index x; meta_index := meta_index x;
     stream_workspace := stream_workspace x;
     inode_lookup_table := inode_lookup_table x;
     inode_table := inode_table x; directory_table := directory_table x;
     block_size := block_size x; block_log := block_log x;
     bytes_used := bytes_used x; inodes := inodes x |}.
Definition set_fragment_cache (v : N) (x : squashfs_sb_info) : squashfs_sb_info :=
  {| devblksize := devblksize x; devblksize_log2 := devblksize_log2 x;
     block_cache := block_cache x; fragment_cache := v;
     read_page := read_page x; id_table := id_table x;
     fragment_index := fragment_index x; meta_index := meta_index x;
     stream_workspace := stream_workspace x;
     inode_lookup_table := inode_lookup_table x;
     inode_table := inode_table x; directory_table := directory_table x;
     block_size := block_size x; block_log := block_log x;
     bytes_used := bytes_used x; inodes := inodes x |}.
Definition set_read_page (v : N) (x : squashfs_sb_info) : squashfs_sb_info :=
  {| devblksize := devblksize x; devblksize_log2 := devblksize_log2 x;
     block_cache := block_cache x; fragment_cache := fragment_cache x;
     read_page := v; id_table := id_table x;
     fragment_index := fragment_index x; meta_index := meta_index x;
     stream_workspace := stream_workspace x;
     inode_lookup_table := inode_lookup_table x;
     inode_table := inode_table x; directory_table := directory_table x;
     block_size := block_size x; block_log := block_log x;
     bytes_used := bytes_used x; inodes := inodes x |}.
Definition set_id_table (v : N) (x : squashfs_sb_info) : squashfs_sb_info :=
  {| devblksize := devblksize x; devblksize_log2 := devblksize_log2 x;
     block_cache := block_cache x; fragment_cache := fragment_cache x;
     read_page := read_page x; id_table := v;
     fragment_index := fragment_index x; meta_index := meta_index x;
     stream_workspace := stream_workspace x;
     inode_lookup_table := inode_lookup_table x;
     inode_table := inode_table x; directory_table := directory_table x;
     block_size := block_size x; block_log := block_log x;
     bytes_used := bytes_used x; inodes := inodes x |}.
Definition set_fragment_index (v : N) (x : squashfs_sb_info) : squashfs_sb_info :=
  {| devblksize := devblksize x; devblksize_log2 := devblksize_log2 x;
     block_cache := block_cache x; fragment_cache := fragment_cache x;
     read_page := read_page x; id_table := id_table x; fragment_index := v;
     meta_index := meta_index x; stream_workspace := stream_workspace x;
     inode_lookup_table := inode_lookup_table x;
     inode_table := inode_table x; directory_table := directory_table x;
     block_size := block_size x; block_log := block_log x;
     bytes_used := bytes_used x; inodes := inodes x |}.
Definition set_meta_index (v : N) (x : squashfs_sb_info) : squashfs_sb_info :=
  {| devblksize := devblksize x; devblksize_log2 := devblksize_log2 x;
     block_cache := block_cache x; fragment_cache := fragment_cache x;
     read_page := read_page x; id_table := id_table x;
     fragment_index := fragment_index x; meta_index := v;
     stream_workspace := stream_workspace x;
     inode_lookup_table := inode_lookup_table x;
     inode_table := inode_table x; directory_table := directory_table x;
     block_size := block_size x; block_log := block_log x;
     bytes_used := bytes_used x; inodes := inodes x |}.
Definition set_stream_workspace (v : N) (x : squashfs_sb_info) : squashfs_sb_info :=
  {| devblksize := devblksize x; devblksize_log2 := devblksize_log2 x;
     block_cache := block_cache x; fragment_cache := fragment_cache x;
     read_page := read_page x; id_table := id_table x;
     fragment_index := fragment_index x; meta_index := meta_index x;
     stream_workspace := v; inode_lookup_table := inode_lookup_table x;
     inode_table := inode_table x; directory_table := directory_table x;
     block_size := block_size x; block_log := block_log x;
     bytes_used := bytes_used x; inodes := inodes x |}.
Definition set_inode_lookup_table (v : N) (x : squashfs_sb_info) : squashfs_sb_info :=
  {| devblksize := devblksize x; devblksize_log2 := devblksize_log2 x;
     block_cache := block_cache x; fragment_cache := fragment_cache x;
     read_page := read_page x; id_table := id_table x;
     fragment_index := fragment_index x; meta_index := meta_index x;
     stream_workspace := stream_workspace x; inode_lookup_table := v;
     inode_table := inode_table x; directory_table := directory_table x;
     block_size := block_size x; block_log := block_log x;
     bytes_used := bytes_used x; inodes := inodes x |}.
Definition set_inode_table (v : Z) (x : squashfs_sb_info) : squashfs_sb_info :=
  {| devblksize := devblksize x; devblksize_log2 := devblksize_log2 x;
     block_cache := block_cache x; fragment_cache := fragment_cache x;
     read_page := read_page x; id_table := id_table x;
     fragment_index := fragment_index x; meta_index := meta_index x;
     stream_workspace := stream_workspace x;
     inode_lookup_table := inode_lookup_table x; inode_table := v;
     directory_table := directory_table x; block_size := block_size x;
     block_log := block_log x; bytes_used := bytes_used x;
     inodes := inodes x |}.
Definition set_directory_table (v : Z) (x : squashfs_sb_info) : squashfs_sb_info :=
  {| devblksize := devblksize x; devblksize_log2 := devblksize_log2 x;
     block_cache := block_cache x; fragment_cache := fragment_cache x;
     read_page := read_page x; id_table := id_table x;
     fragment_index := fragment_index x; meta_index := meta_index x;
     stream_workspace := stream_workspace x;
     inode_lookup_table := inode_lookup_table x;
     inode_table := inode_table x; directory_table := v;
     block_size := block_size x; block_log := block_log x;
     bytes_used := bytes_used x; inodes := inodes x |}.
Definition set_block_size (v : Z) (x : squashfs_sb_info) : squashfs_sb_info :=
  {| devblksize := devblksize x; devblksize_log2 := devblksize_log2 x;
     block_cache := block_cache x; fragment_cache := fragment_cache x;
     read_page := read_page x; id_table := id_table x;
     fragment_index := fragment_index x; meta_index := meta_index x;
     stream_workspace := stream_workspace x;
     inode_lookup_table := inode_lookup_table x;
     inode_table := inode_table x; directory_table := directory_table x;
     block_size := v; block_log := block_log x; bytes_used := bytes_used x;
     inodes := inodes x |}.
Definition set_block_log (v : Z) (x : squashfs_sb_info) : squashfs_sb_info :=
  {| devblksize := devblksize x; devblksize_log2 := devblksize_log2 x;
     block_cache := block_cache x; fragment_cache := fragment_cache x;
     read_page := read_page x; id_table := id_table x;
     fragment_index := fragment_index x; meta_index := meta_index x;
     stream_workspace := stream_workspace x;
     inode_lookup_table := inode_lookup_table x;
     inode_table := inode_table x; directory_table := directory_table x;
     block_size := block_size x; block_log := v;
     bytes_used := bytes_used x; inodes := inodes x |}.
Definition set_bytes_used (v : Z) (x : squashfs_sb_info) : squashfs_sb_info :=
  {| devblksize := devblksize x; devblksize_log2 := devblksize_log2 x;
     block_cache := block_cache x; fragment_cache := fragment_cache x;
     read_page := read_page x; id_table := id_table x;
     fragment_index := fragment_index x; meta_index := meta_index x;
     stream_workspace := stream_workspace x;
     inode_lookup_table := inode_lookup_table x;
     inode_table := inode_table x; directory_table := directory_table x;
     block_size := block_size x; block_log := block_log x; bytes_used := v;
     inodes := inodes x |}.
Definition set_inodes (v : Z) (x : squashfs_sb_info) : squashfs_sb_info :=
  {| devblksize := devblksize x; devblksize_log2 := devblksize_log2 x;
     block_cache := block_cache x; fragment_cache := fragment_cache x;
     read_page := read_page x; id_table := id_table x;
     fragment_index := fragment_index x; meta_index := meta_index x;
     stream_workspace := stream_workspace x;
     inode_lookup_table := inode_lookup_table x;
     inode_table := inode_table x; directory_table := directory_table x;
     block_size := block_size x; block_log := block_log x;
     bytes_used := bytes_used x; inodes := v |}.

Record kernel := {
  brk : N;
  klog : list event;
  fault : bool
}.

Definition set_brk (v : N) (x : kernel) : kernel :=
  {| brk := v; klog := klog x; fault := fault x |}.
Definition set_klog (v : list event) (x : kernel) : kernel :=
  {| brk := brk x; klog := v; fault := fault x |}.
Definition set_fault (v : bool) (x : kernel) : kernel :=
  {| brk := brk x; klog := klog x; fault := v |}.

(** The super block handed to the filesystem, the mount state object and
    the allocator. *)

Record world := {
  sb : super_block;
  msblk : squashfs_sb_info;
  mem : kernel
}.

Definition set_sb (v : super_block) (x : world) : world :=
  {| sb := v; msblk := msblk x; mem := mem x |}.
Definition set_msblk (v : squashfs_sb_info) (x : world) : world :=
  {| sb := sb x; msblk := v; mem := mem x |}.
Definition set_mem (v : kernel) (x : world) : world :=
  {| sb := sb x; msblk := msblk x; mem := v |}.

(** A state of [squashfs_fill_super]: program point, world and the
    locals that live across statements. *)

Record frame := {
  pc : label;
  wd : world;
  sblk : N;
  root : N;
  root_inode : Z;
  err : Z;
  retval : Z
}.

Definition set_pc (v : label) (x : frame) : frame :=
  {| pc := v; wd := wd x; sblk := sblk x; root := root x;
     root_inode := root_inode x; err := err x; retval := retval x |}.
Definition set_wd (v : world) (x : frame) : frame :=
  {| pc := pc x; wd := v; sblk := sblk x; root := root x;
     root_inode := root_inode x; err := err x; retval := retval x |}.
Definition set_sblk (v : N) (x : frame) : frame :=
  {| pc := pc x; wd := wd x; sblk := v; root := root x;
     root_inode := root_inode x; err := err x; retval := retval x |}.
Definition set_root (v : N) (x : frame) : frame :=
  {| pc := pc x; wd := wd x; sblk := sblk x; root := v;
     root_inode := root_inode x; err := err x; retval := retval x |}.
Definition set_root_inode (v : Z) (x : frame) : frame :=
  {| pc := pc x; wd := wd x; sblk := sblk x; root := root x;
     root_inode := v; err := err x; retval := retval x |}.
Definition set_err (v : Z) (x : frame) : frame :=
  {| pc := pc x; wd := wd x; sblk := sblk x; root := root x;
     root_inode := root_inode x; err := v; retval := retval x |}.
Definition set_retval (v : Z) (x : frame) : frame :=
  {| pc := pc x; wd := wd x; sblk := sblk x; root := root x;
     root_inode := root_inode x; err := err x; retval := v |}.

(** ** Allocation and release *)

(** The allocator a pointer currently belongs to, read off the log:
    [Some f] while the block is live, [None] before its allocation and
    after its release. *)
Definition track (p : N) (st : option allocator) (ev : event)
    : option allocator :=
  match ev with
  | Alloc f _ q => if N.eqb q p then Some f else st
  | Free _ q => if N.eqb q p then None else st
  end.

Definition owner (p : N) (log : list event) : option allocator :=
  fold_left (track p) log None.

Definition is_live (p : N) (log : list event) : bool :=
  match owner p log with Some _ => true | None => false end.

Definition owned_by (f : allocator) (p : N) (log : list event) : bool :=
  match owner p log with Some g => allocator_eqb f g | None => false end.

(** How often a pointer was obtained and how often it was released. *)
Definition allocs (p : N) (log : list event) : nat :=
  length (filter (fun ev => match ev with
                            | Alloc _ _ q => N.eqb q p
                            | Free _ _ => false
                            end) log).

Definition frees (p : N) (log : list event) : nat :=
  length (filter (fun ev => match ev with
                            | Alloc _ _ _ => false
                            | Free _ q => N.eqb q p
                            end) log).

(** Was a block of kind [k] ever obtained, and is one live. *)
Definition obtained (k : kind) (log : list event) : bool :=
  existsb (fun ev => match ev with
                     | Alloc _ j _ => kind_eqb j k
                     | Free _ _ => false
                     end) log.

Definition live_kind (k : kind) (log : list event) : bool :=
  existsb (fun ev => match ev with
                     | Alloc _ j p => kind_eqb j k && is_live p log
                     | Free _ _ => false
                     end) log.

(** An allocation primitive: a fresh block when it succeeds, [NULL] and
    an unchanged allocator when it does not. *)
Definition acquire (f : allocator) (k : kind) (ok : bool) (w : world)
    : N * world :=
  if ok then
    let m := mem w in
    (brk m, set_mem {| brk := N.succ (brk m);
                       klog := klog m ++ [Alloc f k (brk m)];
                       fault := fault m |} w)
  else (NULL, w).

(** A release primitive.  All of [kfree], [vfree], [squashfs_cache_delete]
    and [iput] accept [NULL] and do nothing; releasing anything that is
    not a live block of the matching allocator raises the fault flag. *)
Definition release (f : allocator) (p : N) (w : world) : world :=
  if N.eqb p NULL then w
  else
    let m := mem w in
    set_mem {| brk := brk m;
               klog := klog m ++ [Free f p];
               fault := fault m || negb (owned_by f p (klog m)) |} w.

(** Reading a field through a pointer: a fault when the object it points
    to is not live. *)
Definition deref (p : N) (w : world) : world :=
  if is_live p (klog (mem w)) then w
  else set_mem (set_fault true (mem w)) w.

Definition kzalloc := acquire Kmalloc.
Definition vmalloc := acquire Vmalloc.
Definition squashfs_cache_init := acquire Cache.
Definition new_inode := acquire Inode K_root_inode.
Definition d_alloc_root := acquire Dentry K_root_dentry.

Definition kfree := release Kmalloc.
Definition vfree := release Vmalloc.
Definition iput := release Inode.
Definition iget_failed := release Inode.

(** Modelled from the spec: [squashfs_cache_delete] is in [cache.c],
    which is missing; section 4.4 has the release of an absent cache
    tolerated, and a present one is released whole. *)
Definition squashfs_cache_delete := release Cache.

(** What a table loader hands back: a freshly allocated array, or an
    error code wrapped by [ERR_PTR]. *)
Inductive load_result := Loaded | Load_error (error : Z).

Definition load_table (k : kind) (r : load_result) (w : world)
    : N * world :=
  match r with
  | Loaded => acquire Kmalloc k true w
  | Load_error error => (ERR_PTR error, w)
  end.

(** [int err = PTR_ERR(...)]: a [long] stored in an [int]. *)
Definition s32 (x : Z) : Z :=
  let v := u32 x in if v <? 2 ^ 31 then v else v - 2 ^ 32.
Arguments s32 : simpl never.

(** [ffz]: the index of the lowest clear bit of a word. *)
Definition ffz (word : Z) : Z :=
  let y := Z.lnot word in Z.log2 (Z.land y (- y)).
Arguments ffz : simpl never.

(** ** The environment of a mount

    Everything [squashfs_fill_super] obtains from the rest of the kernel:
    whether each allocation succeeds, what the device holds and what the
    collaborators of the other squashfs files return. *)

Record env := {
  ok_kzalloc_msblk : bool;
  ok_vmalloc_workspace : bool;
  ok_kzalloc_sblk : bool;
  r_sb_min_blocksize : Z;
  r_squashfs_read_data : Z;
  disk : Disk.squashfs_super_block;
  r_i_size_read : Z;
  ok_cache_init_metadata : bool;
  ok_vmalloc_read_page : bool;
  r_read_id_index_table : load_result;
  ok_cache_init_fragment : bool;
  r_read_fragment_index_table : load_result;
  r_read_inode_lookup_table : load_result;
  ok_new_inode : bool;
  r_squashfs_read_inode : Z;
  ok_d_alloc_root : bool
}.

(** A loader reports failure with a negated errno. *)
Definition errno_ok (r : load_result) : bool :=
  match r with
  | Loaded => true
  | Load_error error => (- MAX_ERRNO <=? error) && (error <? 0)
  end.

Definition loaders_ok (E : env) : bool :=
  errno_ok (r_read_id_index_table E)
  && errno_ok (r_read_fragment_index_table E)
  && errno_ok (r_read_inode_lookup_table E).

(** ** [squashfs_fill_super] (super.c, lines 68-299) *)

Definition goto (l : label) (s : frame) : frame := set_pc l s.
Definition in_sb (f : super_block -> super_block) (s : frame) : frame :=
  set_wd (set_sb (f (sb (wd s))) (wd s)) s.
Definition in_msblk (f : squashfs_sb_info -> squashfs_sb_info) (s : frame)
    : frame :=
  set_wd (set_msblk (f (msblk (wd s))) (wd s)) s.
Definition in_world (f : world -> world) (s : frame) : frame :=
  set_wd (f (wd s)) s.

(** The object [kzalloc] returns is zero-filled. *)
Definition zeroed : squashfs_sb_info :=
  {| devblksize := 0; devblksize_log2 := 0; block_cache := NULL;
     fragment_cache := NULL; read_page := NULL; id_table := NULL;
     fragment_index := NULL; meta_index := NULL; stream_workspace := NULL;
     inode_lookup_table := NULL; inode_table := 0; directory_table := 0;
     block_size := 0; block_log := 0; bytes_used := 0; inodes := 0 |}.

Definition leave (r : Z) (s : frame) : frame :=
  goto returned (set_retval r s).

Section Mount.

Variable H : squashfs_fs_h.
Variable E : env.

(** One statement of the function, with its failure branch.  The
    comments give the lines of super.c.  [TRACE], [ERROR] and the
    initialisation of the mutexes change nothing that is modelled; the
    xattr test at line 146 only prints a warning. *)
Definition step (s : frame) : frame :=
  let d := disk E in
  match pc s with
  | alloc_msblk =>                                          (* 82-87 *)
      let (p, w) := kzalloc K_msblk (ok_kzalloc_msblk E) (wd s) in
      let s := in_sb (set_s_fs_info p) (set_wd w s) in
      if N.eqb (s_fs_info (sb (wd s))) NULL then leave (- ENOMEM) s
      else goto alloc_workspace (in_msblk (fun _ => zeroed) s)
  | alloc_workspace =>                                      (* 89-93 *)
      let (p, w) := vmalloc K_workspace (ok_vmalloc_workspace E) (wd s) in
      let s := in_msblk (set_stream_workspace p) (set_wd w s) in
      if N.eqb (stream_workspace (msblk (wd s))) NULL then goto failure s
      else goto alloc_sblk s
  | alloc_sblk =>                                           (* 95-99 *)
      let (p, w) := kzalloc K_sblk (ok_kzalloc_sblk E) (wd s) in
      let s := set_sblk p (set_wd w s) in
      if N.eqb (sblk s) NULL then goto failure s
      else goto read_superblock s
  | read_superblock =>                                      (* 101-121 *)
      let s := in_msblk (set_devblksize (r_sb_min_blocksize E)) s in
      let s := in_msblk (fun i =>
                 set_devblksize_log2 (ffz (Z.lnot (devblksize i))) i) s in
      let s := in_msblk (set_bytes_used (sizeof_squashfs_super_block H)) s in
      let s := set_err (r_squashfs_read_data E) s in
      if err s <? 0 then goto failed_mount s
      else goto check_magic s
  | check_magic =>                                          (* 124-131 *)
      let s := in_sb (set_s_magic (le32_to_cpu (Disk.s_magic d))) s in
      if negb (s_magic (sb (wd s)) =? SQUASHFS_MAGIC H)
      then goto failed_mount (set_err (- EINVAL) s)
      else goto check_supported s
  | check_supported =>                                      (* 134-138 *)
      let s := set_err (supported_squashfs_filesystem H
                          (s16 (le16_to_cpu (Disk.s_major d)))
                          (s16 (le16_to_cpu (Disk.s_minor d)))
                          (s16 (le16_to_cpu (Disk.compression d)))) s in
      if err s <? 0 then goto failed_mount s
      else goto check_bytes_used s
  | check_bytes_used =>                                     (* 140-154 *)
      let s := set_err (- EINVAL) s in
      let s := in_msblk
                 (set_bytes_used (s64 (le64_to_cpu (Disk.bytes_used d)))) s in
      if (bytes_used (msblk (wd s)) <? 0)
         || (r_i_size_read E <? bytes_used (msblk (wd s)))
      then goto failed_mount s
      else goto check_block_size s
  | check_block_size =>                                     (* 157-159 *)
      let s := in_msblk
                 (set_block_size (le32_to_cpu (Disk.block_size d))) s in
      if SQUASHFS_FILE_SIZE H <? block_size (msblk (wd s))
      then goto failed_mount s
      else goto check_block_log s
  | check_block_log =>                                      (* 161-163 *)
      let s := in_msblk
                 (set_block_log (le16_to_cpu (Disk.block_log d))) s in
      if SQUASHFS_FILE_LOG H <? block_log (msblk (wd s))
      then goto failed_mount s
      else goto check_root_inode s
  | check_root_inode =>                                     (* 166-168 *)
      let s := set_root_inode (s64 (le64_to_cpu (Disk.root_inode d))) s in
      if SQUASHFS_METADATA_SIZE H <? SQUASHFS_INODE_OFFSET H (root_inode s)
      then goto failed_mount s
      else goto populate s
  | populate =>                                             (* 170-196 *)
      let s := in_msblk
                 (set_inode_table
                    (le64_to_cpu (Disk.inode_table_start d))) s in
      let s := in_msblk
                 (set_directory_table
                    (le64_to_cpu (Disk.directory_table_start d))) s in
      let s := in_msblk (set_inodes (le32_to_cpu (Disk.inodes d))) s in
      let s := in_sb (fun b => set_s_flags (Z.lor (s_flags b) MS_RDONLY) b) s in
      let s := in_sb (set_s_op true) s in
      let s := set_err (- ENOMEM) s in
      goto init_block_cache s
  | init_block_cache =>                                     (* 198-201 *)
      let (p, w) := squashfs_cache_init K_block_cache
                      (ok_cache_init_metadata E) (wd s) in
      let s := in_msblk (set_block_cache p) (set_wd w s) in
      if N.eqb (block_cache (msblk (wd s))) NULL then goto failed_mount s
      else goto alloc_read_page s
  | alloc_read_page =>                                      (* 204-208 *)
      let (p, w) := vmalloc K_read_page (ok_vmalloc_read_page E) (wd s) in
      let s := in_msblk (set_read_page p) (set_wd w s) in
      if N.eqb (read_page (msblk (wd s))) NULL then goto failed_mount s
      else goto load_id_table s
  | load_id_table =>                                        (* 211-217 *)
      let (p, w) := load_table K_id_table (r_read_id_index_table E) (wd s) in
      let s := in_msblk (set_id_table p) (set_wd w s) in
      if IS_ERR (id_table (msblk (wd s))) then
        let s := set_err (s32 (PTR_ERR (id_table (msblk (wd s))))) s in
        let s := in_msblk (set_id_table NULL) s in
        goto failed_mount s
      else goto test_fragments s
  | test_fragments =>                                       (* 219-221 *)
      let fragments := le32_to_cpu (Disk.fragments d) in
      if fragments =? 0 then goto allocate_lookup_table s
      else goto init_fragment_cache s
  | init_fragment_cache =>                                  (* 223-228 *)
      let (p, w) := squashfs_cache_init K_fragment_cache
                      (ok_cache_init_fragment E) (wd s) in
      let s := in_msblk (set_fragment_cache p) (set_wd w s) in
      if N.eqb (fragment_cache (msblk (wd s))) NULL
      then goto failed_mount (set_err (- ENOMEM) s)
      else goto load_fragment_index s
  | load_fragment_index =>                                  (* 231-237 *)
      let (p, w) := load_table K_fragment_index
                      (r_read_fragment_index_table E) (wd s) in
      let s := in_msblk (set_fragment_index p) (set_wd w s) in
      if IS_ERR (fragment_index (msblk (wd s))) then
        let s := set_err (s32 (PTR_ERR (fragment_index (msblk (wd s))))) s in
        let s := in_msblk (set_fragment_index NULL) s in
        goto failed_mount s
      else goto allocate_lookup_table s
  | allocate_lookup_table =>                                (* 239-242 *)
      let lookup_table_start :=
        s64 (le64_to_cpu (Disk.lookup_table_start d)) in
      if lookup_table_start =? SQUASHFS_INVALID_BLK H
      then goto allocate_root s
      else goto load_inode_lookup_table s
  | load_inode_lookup_table =>                              (* 245-253 *)
      let (p, w) := load_table K_inode_lookup_table
                      (r_read_inode_lookup_table E) (wd s) in
      let s := in_msblk (set_inode_lookup_table p) (set_wd w s) in
      if IS_ERR (inode_lookup_table (msblk (wd s))) then
        let s := set_err
                   (s32 (PTR_ERR (inode_lookup_table (msblk (wd s))))) s in
        let s := in_msblk (set_inode_lookup_table NULL) s in
        goto failed_mount s
      else goto allocate_root (in_sb (set_s_export_op true) s)
  | allocate_root =>                                        (* 255-260 *)
      let (p, w) := new_inode (ok_new_inode E) (wd s) in
      let s := set_root p (set_wd w s) in
      if N.eqb (root s) NULL then goto failed_mount (set_err (- ENOMEM) s)
      else goto read_root_inode s
  | read_root_inode =>                                      (* 262-267 *)
      let s := set_err (r_squashfs_read_inode E) s in
      if negb (err s =? 0)
      then goto failed_mount (in_world (iget_failed (root s)) s)
      else goto alloc_root_dentry s
  | alloc_root_dentry =>                                    (* 269-279 *)
      let (p, w) := d_alloc_root (ok_d_alloc_root E) (wd s) in
      let s := in_sb (set_s_root p) (set_wd w s) in
      if N.eqb (s_root (sb (wd s))) NULL then
        let s := set_err (- ENOMEM) s in
        let s := in_world (iput (root s)) s in
        goto failed_mount s
      else
        let s := in_world (kfree (sblk s)) s in
        leave 0 s
  | failed_mount =>                                         (* 281-292 *)
      let s := in_world (fun w =>
                 squashfs_cache_delete (block_cache (msblk w)) w) s in
      let s := in_world (fun w =>
                 squashfs_cache_delete (fragment_cache (msblk w)) w) s in
      let s := in_world (fun w => kfree (inode_lookup_table (msblk w)) w) s in
      let s := in_world (fun w => kfree (fragment_index (msblk w)) w) s in
      let s := in_world (fun w => kfree (id_table (msblk w)) w) s in
      let s := in_world (fun w => vfree (read_page (msblk w)) w) s in
      let s := in_world (fun w => vfree (stream_workspace (msblk w)) w) s in
      let s := in_world (fun w => kfree (s_fs_info (sb w)) w) s in
      let s := in_sb (set_s_fs_info NULL) s in
      let s := in_world (kfree (sblk s)) s in
      leave (err s) s
  | failure =>                                              (* 294-298 *)
      let s := in_world (fun w => vfree (stream_workspace (msblk w)) w) s in
      let s := in_world (fun w => kfree (s_fs_info (sb w)) w) s in
      let s := in_sb (set_s_fs_info NULL) s in
      leave (- ENOMEM) s
  | returned => s
  end.

Fixpoint run (n : nat) (s : frame) : frame :=
  match n with
  | O => s
  | S n' => run n' (step s)
  end.

(** The states the function goes through, in order. *)
Fixpoint trace (n : nat) (s : frame) : list frame :=
  match n with
  | O => [s]
  | S n' => s :: trace n' (step s)
  end.

(** The function is entered with [sblk = NULL]; the other locals are
    not initialised. *)
Definition entry (w : world) : frame :=
  {| pc := alloc_msblk; wd := w; sblk := NULL; root := NULL;
     root_inode := 0; err := 0; retval := 0 |}.

(** No path through the function has more than 23 statements. *)
Definition fuel : nat := 24.

Definition squashfs_fill_super (w : world) : Z * world :=
  let s := run fuel (entry w) in (retval s, wd s).

End Mount.

(** The super block as the VFS hands it to [squashfs_fill_super]: no
    state attached, no operation tables, the mount flags of the caller;
    and nothing allocated for this mount yet. *)
Definition unmounted (flags : Z) : world :=
  {| sb := {| s_fs_info := NULL; s_magic := 0; s_flags := flags;
              s_op := false; s_export_op := false; s_root := NULL |};
     msblk := zeroed;
     mem := {| brk := 1; klog := []; fault := false |} |}.

(** ** [squashfs_statfs] (super.c, lines 302-317) *)

Record kstatfs := {
  f_type : Z;
  f_bsize : Z;
  f_blocks : Z;
  f_bfree : Z;
  f_bavail : Z;
  f_files : Z;
  f_ffree : Z;
  f_namelen : Z
}.

(** [f_blocks] is the value of the [long long] expression of line 310;
    [>>] on a negative [long long] is the arithmetic shift. *)
Definition squashfs_statfs (H : squashfs_fs_h) (w : world) : Z * kstatfs :=
  let msblk := msblk w in
  (0, {| f_type := SQUASHFS_MAGIC H;
         f_bsize := block_size msblk;
         f_blocks := Z.shiftr (bytes_used msblk - 1) (block_log msblk) + 1;
         f_bfree := 0;
         f_bavail := 0;
         f_files := inodes msblk;
         f_ffree := 0;
         f_namelen := SQUASHFS_NAME_LEN H |}).

(** ** [squashfs_remount] (super.c, lines 320-324) *)

Definition squashfs_remount (flags : Z) : Z * Z :=
  (0, Z.lor flags MS_RDONLY).

(** ** [squashfs_put_super] (super.c, lines 327-341) *)

Definition squashfs_put_super (w : world) : world :=
  if negb (N.eqb (s_fs_info (sb w)) NULL) then
    let w := deref (s_fs_info (sb w)) w in
    let sbi := msblk w in
    let w := squashfs_cache_delete (block_cache sbi) w in
    let w := squashfs_cache_delete (fragment_cache sbi) w in
    let w := vfree (read_page sbi) w in
    let w := kfree (id_table sbi) w in
    let w := kfree (fragment_index sbi) w in
    let w := kfree (meta_index sbi) w in
    let w := vfree (stream_workspace sbi) w in
    let w := kfree (s_fs_info (sb w)) w in
    set_sb (set_s_fs_info NULL (sb w)) w
  else w.

(** ** Vocabulary of the statements *)

Definition rank (l : label) : nat :=
  match l with
  | alloc_msblk => 0 | alloc_workspace => 1 | alloc_sblk => 2
  | read_superblock => 3 | check_magic => 4 | check_supported => 5
  | check_bytes_used => 6 | check_block_size => 7 | check_block_log => 8
  | check_root_inode => 9 | populate => 10 | init_block_cache => 11
  | alloc_read_page => 12 | load_id_table => 13 | test_fragments => 14
  | init_fragment_cache => 15 | load_fragment_index => 16
  | allocate_lookup_table => 17 | load_inode_lookup_table => 18
  | allocate_root => 19 | read_root_inode => 20 | alloc_root_dentry => 21
  | failed_mount => 22 | failure => 23 | returned => 24
  end%nat.

Definition label_eqb (a b : label) : bool := Nat.eqb (rank a) (rank b).

(** The states of a mount attempt on a fresh super block. *)
Definition states (H : squashfs_fs_h) (E : env) (flags : Z) : list frame :=
  trace H E fuel (entry (unmounted flags)).

(** Does the attempt execute the statement at [l], and in which state
    does it arrive there. *)
Definition visits (H : squashfs_fs_h) (E : env) (flags : Z) (l : label)
    : bool :=
  existsb (fun s => label_eqb (pc s) l) (states H E flags).

Definition state_at (H : squashfs_fs_h) (E : env) (flags : Z) (l : label)
    : option frame :=
  find (fun s => label_eqb (pc s) l) (states H E flags).

(** Every block obtained was obtained once and released once, and none
    is live. *)
Definition balanced (log : list event) : bool :=
  forallb (fun ev =>
             match ev with
             | Alloc _ _ p =>
                 Nat.eqb (allocs p log) 1 && Nat.eqb (frees p log) 1
                 && negb (is_live p log)
             | Free _ p => Nat.eqb (allocs p log) 1
             end) log.

(** Every block of kind [k] that was obtained was released exactly
    once. *)
Definition released_once (k : kind) (log : list event) : bool :=
  forallb (fun ev =>
             match ev with
             | Alloc _ j p => negb (kind_eqb j k) || Nat.eqb (frees p log) 1
             | Free _ _ => true
             end) log.

(** The acquisition steps in the order the specification numbers them,
    the statements that carry them out and the blocks they obtain. *)
Definition step_of (l : label) : option nat :=
  match l with
  | alloc_workspace => Some 1
  | alloc_read_page => Some 2
  | init_block_cache => Some 3
  | load_id_table => Some 4
  | init_fragment_cache => Some 5
  | load_fragment_index => Some 6
  | load_inode_lookup_table => Some 7
  | allocate_root | read_root_inode | alloc_root_dentry => Some 8
  | _ => None
  end%nat.

Definition step_of_kind (k : kind) : option nat :=
  match k with
  | K_workspace => Some 1
  | K_read_page => Some 2
  | K_block_cache => Some 3
  | K_id_table => Some 4
  | K_fragment_cache => Some 5
  | K_fragment_index => Some 6
  | K_inode_lookup_table => Some 7
  | K_root_inode | K_root_dentry => Some 8
  | K_msblk | K_sblk | K_meta_index => None
  end%nat.

(** The error with which the primitive of an acquisition statement
    fails under [E], if it does: [-ENOMEM] for an allocation that
    returns [NULL], the code a loader or [squashfs_read_inode]
    reports. *)
Definition failure_of (E : env) (l : label) : option Z :=
  let nomem (ok : bool) := if ok then None else Some (- ENOMEM) in
  let code (r : load_result) :=
    match r with Loaded => None | Load_error error => Some error end in
  match l with
  | alloc_workspace => nomem (ok_vmalloc_workspace E)
  | alloc_read_page => nomem (ok_vmalloc_read_page E)
  | init_block_cache => nomem (ok_cache_init_metadata E)
  | load_id_table => code (r_read_id_index_table E)
  | init_fragment_cache => nomem (ok_cache_init_fragment E)
  | load_fragment_index => code (r_read_fragment_index_table E)
  | load_inode_lookup_table => code (r_read_inode_lookup_table E)
  | allocate_root => nomem (ok_new_inode E)
  | read_root_inode =>
      if r_squashfs_read_inode E =? 0 then None
      else Some (r_squashfs_read_inode E)
  | alloc_root_dentry => nomem (ok_d_alloc_root E)
  | _ => None
  end.

(** The fields of the superblock as [squashfs_fill_super] decodes
    them. *)
Definition sb_magic (E : env) : Z := le32_to_cpu (Disk.s_magic (disk E)).
Definition sb_bytes_used (E : env) : Z :=
  s64 (le64_to_cpu (Disk.bytes_used (disk E))).
Definition sb_block_size (E : env) : Z :=
  le32_to_cpu (Disk.block_size (disk E)).
Definition sb_block_log (E : env) : Z :=
  le16_to_cpu (Disk.block_log (disk E)).
Definition sb_inodes (E : env) : Z := le32_to_cpu (Disk.inodes (disk E)).
Definition sb_fragments (E : env) : Z :=
  le32_to_cpu (Disk.fragments (disk E)).
Definition sb_root_offset (H : squashfs_fs_h) (E : env) : Z :=
  SQUASHFS_INODE_OFFSET H (s64 (le64_to_cpu (Disk.root_inode (disk E)))).
Definition sb_lookup_table_start (E : env) : Z :=
  s64 (le64_to_cpu (Disk.lookup_table_start (disk E))).

(** The mount state, the workspace and the scratch copy are obtained
    and the superblock is read. *)
Definition superblock_read (E : env) : bool :=
  ok_kzalloc_msblk E && ok_vmalloc_workspace E && ok_kzalloc_sblk E
  && negb (r_squashfs_read_data E <? 0).

Definition magic_ok (H : squashfs_fs_h) (E : env) : bool :=
  sb_magic E =? SQUASHFS_MAGIC H.

Definition version_ok (H : squashfs_fs_h) (E : env) : bool :=
  negb (supported_squashfs_filesystem H
          (s16 (le16_to_cpu (Disk.s_major (disk E))))
          (s16 (le16_to_cpu (Disk.s_minor (disk E))))
          (s16 (le16_to_cpu (Disk.compression (disk E)))) <? 0).

Definition bounds_ok (H : squashfs_fs_h) (E : env) : bool :=
  negb (sb_bytes_used E <? 0)
  && negb (r_i_size_read E <? sb_bytes_used E)
  && negb (SQUASHFS_FILE_SIZE H <? sb_block_size E)
  && negb (SQUASHFS_FILE_LOG H <? sb_block_log E)
  && negb (SQUASHFS_METADATA_SIZE H <? sb_root_offset H E).

Definition loaded (r : load_result) : bool :=
  match r with Loaded => true | Load_error _ => false end.

(** Every step other than the load of the inode lookup table
    succeeds. *)
Definition others_succeed (H : squashfs_fs_h) (E : env) : bool :=
  superblock_read E && magic_ok H E && version_ok H E && bounds_ok H E
  && ok_cache_init_metadata E && ok_vmalloc_read_page E
  && loaded (r_read_id_index_table E)
  && ((sb_fragments E =? 0)
      || (ok_cache_init_fragment E
          && loaded (r_read_fragment_index_table E)))
  && ok_new_inode E && (r_squashfs_read_inode E =? 0)
  && ok_d_alloc_root E.

(** A table field is in order: null, or an array a loader returned for
    it, that is not an error pointer and is still owned. *)
Definition loaded_as (k : kind) (p : N) (log : list event) : bool :=
  existsb (fun ev =>
             match ev with
             | Alloc Kmalloc j q => kind_eqb j k && N.eqb q p
             | _ => false
             end) log.

Definition table_valid (k : kind) (p : N) (w : world) : bool :=
  N.eqb p NULL
  || (negb (IS_ERR p) && loaded_as k p (klog (mem w))
      && owned_by Kmalloc p (klog (mem w))).

Definition tables_valid (w : world) : bool :=
  table_valid K_id_table (id_table (msblk w)) w
  && table_valid K_fragment_index (fragment_index (msblk w)) w
  && table_valid K_inode_lookup_table (inode_lookup_table (msblk w)) w.

(** The invariant: for as long as the mount state exists its three
    table fields are in order. *)
Definition tables_ok (s : frame) : bool :=
  N.eqb (s_fs_info (sb (wd s))) NULL || tables_valid (wd s).

(** What the unwind path finds when it is entered. *)
Definition unwind_ok (s : frame) : bool :=
  negb (label_eqb (pc s) failed_mount)
  || (negb (N.eqb (s_fs_info (sb (wd s))) NULL) && tables_valid (wd s)).

(** Only the mount state record and the scratch copy of the superblock
    have been obtained. *)
Definition only_scratch (log : list event) : bool :=
  forallb (fun ev =>
             match ev with
             | Alloc _ k _ => kind_eqb k K_msblk || kind_eqb k K_sblk
             | Free _ _ => true
             end) log.

(** ** Mounted and released states *)

Definition held (f : allocator) (p : N) (w : world) : bool :=
  N.eqb p NULL || owned_by f p (klog (mem w)).

Definition apart (p q : N) : bool :=
  N.eqb p NULL || N.eqb q NULL || negb (N.eqb p q).

Fixpoint pairwise_apart (l : list N) : bool :=
  match l with
  | [] => true
  | p :: l' => forallb (apart p) l' && pairwise_apart l'
  end.

(** The pointers of a mount, in the order [squashfs_put_super] releases
    them, and the lookup table. *)
Definition resources (w : world) : list N :=
  [block_cache (msblk w); fragment_cache (msblk w); read_page (msblk w);
   id_table (msblk w); fragment_index (msblk w); meta_index (msblk w);
   stream_workspace (msblk w); s_fs_info (sb w);
   inode_lookup_table (msblk w)].

(** A mount state is attached, no fault has occurred, and every
    resource field is null or a live block of its allocator, no block
    being referenced twice. *)
Definition mounted (w : world) : bool :=
  negb (N.eqb (s_fs_info (sb w)) NULL)
  && negb (fault (mem w))
  && owned_by Kmalloc (s_fs_info (sb w)) (klog (mem w))
  && held Cache (block_cache (msblk w)) w
  && held Cache (fragment_cache (msblk w)) w
  && held Vmalloc (read_page (msblk w)) w
  && held Kmalloc (id_table (msblk w)) w
  && held Kmalloc (fragment_index (msblk w)) w
  && held Kmalloc (meta_index (msblk w)) w
  && held Vmalloc (stream_workspace (msblk w)) w
  && held Kmalloc (inode_lookup_table (msblk w)) w
  && pairwise_apart (resources w).

Definition released (w : world) : bool :=
  N.eqb (s_fs_info (sb w)) NULL && negb (fault (mem w)).

(** ** The block count of the specification *)

(** The quotient rounded up, for a positive divisor. *)
Definition ceil_div (a b : Z) : Z := (a + b - 1) / b.

(** ** Concrete mounts *)

(** An image with the given magic, major version, fragment count, block
    size and log, size, and inode lookup table offset; the other fields
    are those of a small 4.0 image. *)
Definition image (magic major fragments block_size block_log bytes_used
                  lookup_table_start : Z) : Disk.squashfs_super_block :=
  {| Disk.s_magic := magic;
     Disk.inodes := 10;
     Disk.block_size := block_size;
     Disk.fragments := fragments;
     Disk.compression := 1;
     Disk.block_log := block_log;
     Disk.flags := 0;
     Disk.no_ids := 1;
     Disk.s_major := major;
     Disk.s_minor := 0;
     Disk.root_inode := 0;
     Disk.bytes_used := bytes_used;
     Disk.id_table_start := 4096;
     Disk.xattr_table_start := 0xffffffffffffffff;
     Disk.inode_table_start := 96;
     Disk.directory_table_start := 1024;
     Disk.fragment_table_start := 2048;
     Disk.lookup_table_start := lookup_table_start |}.

(** A kernel in which the primitive of every statement listed in
    [fails] fails (a loader with [-EIO], [squashfs_read_inode] too) and
    every other one succeeds, on a device of [size] bytes holding
    [d]. *)
Definition EIO : Z := 5.

Definition kernel_with (d : Disk.squashfs_super_block) (size : Z)
    (fails : list label) : env :=
  let ok (l : label) := negb (existsb (label_eqb l) fails) in
  let load (l : label) := if ok l then Loaded else Load_error (- EIO) in
  {| ok_kzalloc_msblk := ok alloc_msblk;
     ok_vmalloc_workspace := ok alloc_workspace;
     ok_kzalloc_sblk := ok alloc_sblk;
     r_sb_min_blocksize := 1024;
     r_squashfs_read_data := if ok read_superblock then 96 else - EIO;
     disk := d;
     r_i_size_read := size;
     ok_cache_init_metadata := ok init_block_cache;
     ok_vmalloc_read_page := ok alloc_read_page;
     r_read_id_index_table := load load_id_table;
     ok_cache_init_fragment := ok init_fragment_cache;
     r_read_fragment_index_table := load load_fragment_index;
     r_read_inode_lookup_table := load load_inode_lookup_table;
     ok_new_inode := ok allocate_root;
     r_squashfs_read_inode := if ok read_root_inode then 0 else - EIO;
     ok_d_alloc_root := ok alloc_root_dentry |}.

(** The image of the specification's scenario: 4.0, zlib, 131072-byte
    blocks, no fragments, no inode lookup table, filling its device. *)
Definition plain_image : Disk.squashfs_super_block :=
  image 0x73717368 4 0 131072 17 262144 0xffffffffffffffff.

(** The same with five fragments and an inode lookup table. *)
Definition full_image : Disk.squashfs_super_block :=
  image 0x73717368 4 5 131072 17 262144 8192.

(** An image whose [block_log] is not the logarithm of its
    [block_size]. *)
Definition skewed_image : Disk.squashfs_super_block :=
  image 0x73717368 4 0 131072 12 262144 0xffffffffffffffff.

(** An image with a foreign magic number. *)
Definition foreign_image : Disk.squashfs_super_block :=
  image 0x53EF 4 0 131072 17 262144 0xffffffffffffffff.

(** Mounts of these images on a device of 262144 bytes, and of the
    plain image on a device that is too small for it. *)
Definition plain_mount : env := kernel_with plain_image 262144 [].
Definition full_mount : env := kernel_with full_image 262144 [].
Definition skewed_mount : env := kernel_with skewed_image 262144 [].
Definition foreign_mount : env := kernel_with foreign_image 262144 [].
Definition truncated_mount : env := kernel_with plain_image 4096 [].

(** The full image on a kernel where the load of the fragment index
    fails. *)
Definition starved_mount : env :=
  kernel_with full_image 262144 [load_fragment_index].

(** A 3.0 image. *)
Definition old_image : Disk.squashfs_super_block :=
  image 0x73717368 3 0 131072 17 262144 0xffffffffffffffff.
Definition old_mount : env := kernel_with old_image 262144 [].

(** A state in which the id table field holds the error pointer a
    loader returned: what line 211 leaves behind before line 215
    resets it. *)
Definition stale_error (s : frame) : frame :=
  in_msblk (set_id_table (ERR_PTR (- EIO))) s.

(** ** Further vocabulary *)

(** The kinds of the blocks obtained, in the order of the log. *)
Definition alloc_kinds (log : list event) : list kind :=
  flat_map (fun ev => match ev with
                      | Alloc _ k _ => [k]
                      | Free _ _ => []
                      end) log.

(** [subseq l m]: [l] is [m] with some elements left out. *)
Fixpoint subseq (l m : list kind) : bool :=
  match l, m with
  | [], _ => true
  | _ :: _, [] => false
  | a :: l', b :: m' =>
      if kind_eqb a b then subseq l' m' else subseq l m'
  end.

(** The order in which the text of [squashfs_fill_super] obtains its
    blocks. *)
Definition acquisition_order : list kind :=
  [K_msblk; K_workspace; K_sblk; K_block_cache; K_read_page; K_id_table;
   K_fragment_cache; K_fragment_index; K_inode_lookup_table; K_root_inode;
   K_root_dentry].


(** The validation of the superblock passes. *)
Definition validated (H : squashfs_fs_h) (E : env) : bool :=
  superblock_read E && magic_ok H E && version_ok H E && bounds_ok H E.

(** Mounts of the plain image on kernels where the scratch copy cannot
    be allocated, and where the device cannot be read. *)
Definition scratchless_mount : env :=
  kernel_with plain_image 262144 [alloc_sblk].
Definition unreadable_mount : env :=
  kernel_with plain_image 262144 [read_superblock].

(** ** The inode cache and the registration of the filesystem
    (super.c, lines 353-419)

    The state the module keeps besides its mounts: the static
    [squashfs_inode_cachep], and what the slab allocator and the
    filesystem registry have been asked to do. *)

Inductive module_event :=
| Cache_create (c : N)
| Cache_destroy (c : N)
| Object_alloc (c p : N)
| Object_free (c p : N)
| Fs_register
| Fs_unregister.

Record module_state := {
  squashfs_inode_cachep : N;
  next_block : N;
  mlog : list module_event;
  mfault : bool
}.

(** Is [c] a cache that was created and not destroyed since, is [p] an
    object of [c] that was allocated and not freed since, and is the
    filesystem registered. *)
Definition cache_live (c : N) (log : list module_event) : bool :=
  fold_left (fun st ev =>
               match ev with
               | Cache_create d => if N.eqb d c then true else st
               | Cache_destroy d => if N.eqb d c then false else st
               | _ => st
               end) log false.

Definition object_live (c p : N) (log : list module_event) : bool :=
  fold_left (fun st ev =>
               match ev with
               | Object_alloc d q =>
                   if N.eqb d c && N.eqb q p then true else st
               | Object_free d q =>
                   if N.eqb d c && N.eqb q p then false else st
               | _ => st
               end) log false.

Definition registered (log : list module_event) : bool :=
  fold_left (fun st ev =>
               match ev with
               | Fs_register => true
               | Fs_unregister => false
               | _ => st
               end) log false.

Definition log_event (ev : module_event) (bad : bool) (m : module_state)
    : module_state :=
  {| squashfs_inode_cachep := squashfs_inode_cachep m;
     next_block := next_block m;
     mlog := mlog m ++ [ev];
     mfault := mfault m || bad |}.

Definition fresh_block (m : module_state) : N * module_state :=
  (next_block m,
   {| squashfs_inode_cachep := squashfs_inode_cachep m;
      next_block := N.succ (next_block m);
      mlog := mlog m;
      mfault := mfault m |}).

(** The slab allocator: creation and allocation give a fresh block or
    [NULL]; destroying what is not a live cache, allocating from one,
    and freeing what is not a live object of the cache are faults. *)
Definition kmem_cache_create (ok : bool) (m : module_state)
    : N * module_state :=
  if ok then
    let (c, m) := fresh_block m in (c, log_event (Cache_create c) false m)
  else (NULL, m).

Definition kmem_cache_destroy (c : N) (m : module_state) : module_state :=
  log_event (Cache_destroy c) (negb (cache_live c (mlog m))) m.

Definition kmem_cache_alloc (c : N) (ok : bool) (m : module_state)
    : N * module_state :=
  if cache_live c (mlog m) then
    if ok then
      let (p, m) := fresh_block m in (p, log_event (Object_alloc c p) false m)
    else (NULL, m)
  else (NULL, {| squashfs_inode_cachep := squashfs_inode_cachep m;
                 next_block := next_block m;
                 mlog := mlog m;
                 mfault := true |}).

Definition kmem_cache_free (c p : N) (m : module_state) : module_state :=
  log_event (Object_free c p) (negb (object_live c p (mlog m))) m.

(** The registry: [register_filesystem] answers [r], 0 when it has
    registered the type; [unregister_filesystem] removes it when it is
    there, and its answer is not looked at. *)
Definition register_filesystem (r : Z) (m : module_state) : module_state :=
  if r =? 0 then log_event Fs_register false m else m.

Definition unregister_filesystem (m : module_state) : module_state :=
  if registered (mlog m) then log_event Fs_unregister false m else m.

Definition set_squashfs_inode_cachep (c : N) (m : module_state)
    : module_state :=
  {| squashfs_inode_cachep := c;
     next_block := next_block m;
     mlog := mlog m;
     mfault := mfault m |}.

(** [init_inodecache] (lines 364-371). *)
Definition init_inodecache (ok : bool) (m : module_state)
    : Z * module_state :=
  let (c, m) := kmem_cache_create ok m in
  let m := set_squashfs_inode_cachep c m in
  (if negb (N.eqb (squashfs_inode_cachep m) NULL) then 0 else - ENOMEM, m).

(** [destroy_inodecache] (lines 374-377). *)
Definition destroy_inodecache (m : module_state) : module_state :=
  kmem_cache_destroy (squashfs_inode_cachep m) m.

(** [init_squashfs_fs] (lines 380-397); the [printk] changes nothing. *)
Definition init_squashfs_fs (ok : bool) (r : Z) (m : module_state)
    : Z * module_state :=
  let (err, m) := init_inodecache ok m in
  if negb (err =? 0) then (err, m)
  else
    let err := r in
    let m := register_filesystem r m in
    if negb (err =? 0) then (err, destroy_inodecache m)
    else (0, m).

(** [exit_squashfs_fs] (lines 400-404). *)
Definition exit_squashfs_fs (m : module_state) : module_state :=
  destroy_inodecache (unregister_filesystem m).

(** [squashfs_alloc_inode] (lines 407-413) and [squashfs_destroy_inode]
    (lines 416-419).  [struct squashfs_inode_info] is declared in the
    missing [squashfs_fs_i.h]: the offset of its member [vfs_inode]
    and the macro [SQUASHFS_I], which leads from an inode back to the
    object that holds it, are parameters. *)
Definition squashfs_alloc_inode (vfs_inode_offset : N) (ok : bool)
    (m : module_state) : N * module_state :=
  let (ei, m) := kmem_cache_alloc (squashfs_inode_cachep m) ok m in
  (if negb (N.eqb ei NULL) then (ei + vfs_inode_offset)%N else NULL, m).

Definition squashfs_destroy_inode (SQUASHFS_I : N -> N) (inode : N)
    (m : module_state) : module_state :=
  kmem_cache_free (squashfs_inode_cachep m) (SQUASHFS_I inode) m.

(** The module before it is loaded. *)
Definition unloaded : module_state :=
  {| squashfs_inode_cachep := NULL; next_block := 1; mlog := [];
     mfault := false |}.

(** * Proofs *)

(** ** Fixed-width integers and error pointers *)

Lemma u64_negative e : - 2 ^ 63 <= e < 0 -> u64 e = e + 2 ^ 64.
Proof.
  intros He. unfold u64.
  rewrite <- (Z.mod_add e 1) by lia.
  rewrite Z.mul_1_l. apply Z.mod_small. lia.
Qed.

Lemma u64_small x : 0 <= x < 2 ^ 64 -> u64 x = x.
Proof. intros. unfold u64. now apply Z.mod_small. Qed.

Lemma IS_ERR_ERR_PTR e : - MAX_ERRNO <= e < 0 -> IS_ERR (ERR_PTR e) = true.
Proof.
  unfold MAX_ERRNO. intros He. unfold IS_ERR, ERR_PTR, MAX_ERRNO.
  rewrite (u64_negative e) by lia.
  rewrite Z2N.id by lia. apply Z.leb_le. lia.
Qed.

Lemma PTR_ERR_ERR_PTR e :
  - MAX_ERRNO <= e < 0 -> s32 (PTR_ERR (ERR_PTR e)) = e.
Proof.
  unfold MAX_ERRNO. intros He.
  unfold PTR_ERR, ERR_PTR.
  rewrite (u64_negative e) by lia.
  rewrite Z2N.id by lia.
  unfold s64. rewrite u64_small by lia.
  destruct (Z.ltb_spec (e + 2 ^ 64) (2 ^ 63)) as [Hlt|_]; [lia|].
  replace (e + 2 ^ 64 - 2 ^ 64) with e by lia.
  unfold s32, u32.
  assert (Hn : e mod 2 ^ 32 = e + 2 ^ 32).
  { rewrite <- (Z.mod_add e 1) by lia.
    rewrite Z.mul_1_l. apply Z.mod_small. lia. }
  rewrite Hn.
  destruct (Z.ltb_spec (e + 2 ^ 32) (2 ^ 31)); lia.
Qed.

Lemma errno_ok_error e :
  errno_ok (Load_error e) = true -> - MAX_ERRNO <= e < 0.
Proof. cbn. intros Hb. apply andb_prop in Hb. destruct Hb. lia. Qed.

Lemma loaders_ok_split E :
  loaders_ok E = true ->
  errno_ok (r_read_id_index_table E) = true
  /\ errno_ok (r_read_fragment_index_table E) = true
  /\ errno_ok (r_read_inode_lookup_table E) = true.
Proof.
  unfold loaders_ok. intros Hb.
  apply andb_prop in Hb. destruct Hb as [Hb ?].
  apply andb_prop in Hb. destruct Hb. auto.
Qed.

(** ** The version and compression gate *)

(** C4: [supported_squashfs_filesystem] answers [-EINVAL] exactly when
    the major version is below or above the supported one, or the major
    version is the supported one and the minor version is above the
    supported one, or the compression is not zlib; it answers 0 for the
    supported major, a minor not above the supported one and zlib. *)
Theorem supported_squashfs_filesystem_gate :
  forall (H : squashfs_fs_h) (major minor comp : Z),
    (supported_squashfs_filesystem H major minor comp = - EINVAL <->
     major < SQUASHFS_MAJOR H
     \/ SQUASHFS_MAJOR H < major
     \/ (major = SQUASHFS_MAJOR H /\ SQUASHFS_MINOR H < minor)
     \/ comp <> ZLIB_COMPRESSION H)
    /\ (supported_squashfs_filesystem H major minor comp = 0 <->
        major = SQUASHFS_MAJOR H
        /\ minor <= SQUASHFS_MINOR H
        /\ comp = ZLIB_COMPRESSION H).
Proof.
  intros H major minor comp. unfold supported_squashfs_filesystem, EINVAL.
  destruct (Z.ltb_spec major (SQUASHFS_MAJOR H));
    destruct (Z.ltb_spec (SQUASHFS_MAJOR H) major);
    destruct (Z.ltb_spec (SQUASHFS_MINOR H) minor);
    destruct (Z.eqb_spec comp (ZLIB_COMPRESSION H));
    cbn [orb negb]; split; split; intros; try lia; try discriminate;
    intuition lia.
Qed.

(** ** Running [squashfs_fill_super] *)

Lemma trace_S H E n s : trace H E (S n) s = s :: trace H E n (step H E s).
Proof. reflexivity. Qed.

Lemma step_returned H E s : pc s = returned -> step H E s = s.
Proof. intros Hs. unfold step. now rewrite Hs. Qed.

Lemma trace_returned H E n s :
  pc s = returned -> trace H E n s = repeat s (S n).
Proof.
  revert s; induction n as [|n IH]; intros s Hs; [reflexivity|].
  rewrite trace_S, step_returned, IH by assumption. reflexivity.
Qed.

Lemma run_last H E n s d : run H E n s = last (trace H E n s) d.
Proof.
  revert s d; induction n as [|n IH]; intros s d; [reflexivity|].
  cbn [run]. rewrite trace_S, (IH _ d).
  cbn [last]. destruct n; reflexivity.
Qed.

Lemma fill_super_last H E flags :
  squashfs_fill_super H E (unmounted flags)
  = (retval (last (states H E flags) (entry (unmounted flags))),
     wd (last (states H E flags) (entry (unmounted flags)))).
Proof.
  unfold squashfs_fill_super, states.
  now rewrite (run_last _ _ _ _ (entry (unmounted flags))).
Qed.

(** Every statement moves forward in the text of the function, so the
    function returns: [fuel] statements are enough from any state. *)
Lemma step_forward H E s :
  pc s <> returned -> (rank (pc s) < rank (pc (step H E s)))%nat.
Proof.
  intros Hs. unfold step.
  destruct (pc s); try congruence;
    unfold kzalloc, vmalloc, squashfs_cache_init, new_inode, d_alloc_root,
      acquire, load_table;
    repeat (cbn;
      match goal with
      | |- context [match ?c with Loaded => _ | Load_error _ => _ end] =>
          destruct c
      | |- context [if ?c then _ else _] => destruct c
      end);
    cbn; lia.
Qed.

Lemma run_returns H E n s :
  (rank returned - rank (pc s) <= n)%nat -> pc (run H E n s) = returned.
Proof.
  revert s; induction n as [|n IH]; intros s Hn.
  - cbn [run]. destruct (pc s); cbn in Hn; try lia. reflexivity.
  - cbn [run]. destruct (label_eqb (pc s) returned) eqn:Hr.
    + assert (Hs : pc s = returned).
      { unfold label_eqb in Hr. apply Nat.eqb_eq in Hr.
        destruct (pc s); cbn in Hr; try discriminate. reflexivity. }
      rewrite step_returned by assumption.
      apply IH. rewrite Hs. cbn. lia.
    + assert (Hs : pc s <> returned).
      { intros Hs. rewrite Hs in Hr. discriminate. }
      apply IH. pose proof (step_forward H E s Hs).
      assert (rank (pc (step H E s)) <= rank returned)%nat
        by (destruct (pc (step H E s)); cbn; lia).
      lia.
Qed.

(** [squashfs_fill_super] returns, from any state of the world. *)
Theorem squashfs_fill_super_returns :
  forall H E w, pc (run H E fuel (entry w)) = returned.
Proof. intros. apply run_returns. unfold fuel. cbn. lia. Qed.

(** *** The scenarios of the specification *)

(** The plain image mounts; the report gives its block size, its ten
    inodes and no free inode, and no export operations are installed. *)
Example plain_image_mounts :
  let r := squashfs_fill_super squashfs_4_0 plain_mount (unmounted 0) in
  let st := snd (squashfs_statfs squashfs_4_0 (snd r)) in
  fst r = 0
  /\ f_bsize st = 131072 /\ f_blocks st = 2 /\ f_files st = 10
  /\ f_ffree st = 0 /\ f_namelen st = 256
  /\ s_export_op (sb (snd r)) = false
  /\ fragment_cache (msblk (snd r)) = NULL
  /\ fragment_index (msblk (snd r)) = NULL.
Proof. vm_compute. repeat split; reflexivity. Qed.

(** With five fragments and a lookup table the fragment cache, the
    fragment index and the lookup table are present. *)
Example full_image_mounts :
  let r := squashfs_fill_super squashfs_4_0 full_mount (unmounted 0) in
  fst r = 0
  /\ klog (mem (snd r))
     = [Alloc Kmalloc K_msblk 1; Alloc Vmalloc K_workspace 2;
        Alloc Kmalloc K_sblk 3; Alloc Cache K_block_cache 4;
        Alloc Vmalloc K_read_page 5; Alloc Kmalloc K_id_table 6;
        Alloc Cache K_fragment_cache 7; Alloc Kmalloc K_fragment_index 8;
        Alloc Kmalloc K_inode_lookup_table 9; Alloc Inode K_root_inode 10;
        Alloc Dentry K_root_dentry 11; Free Kmalloc 3]
  /\ s_export_op (sb (snd r)) = true.
Proof. vm_compute. repeat split; reflexivity. Qed.

(** A 3.0 image is rejected before any table is loaded. *)
Example old_image_rejected :
  let r := squashfs_fill_super squashfs_4_0 old_mount (unmounted 0) in
  fst r = - EINVAL
  /\ visits squashfs_4_0 old_mount 0 check_supported = true
  /\ visits squashfs_4_0 old_mount 0 check_bytes_used = false
  /\ obtained K_id_table (klog (mem (snd r))) = false.
Proof. vm_compute. repeat split; reflexivity. Qed.

(** A failing load of the fragment index unwinds everything. *)
Example starved_mount_unwinds :
  let r := squashfs_fill_super squashfs_4_0 starved_mount (unmounted 0) in
  fst r = - EIO
  /\ klog (mem (snd r))
     = [Alloc Kmalloc K_msblk 1; Alloc Vmalloc K_workspace 2;
        Alloc Kmalloc K_sblk 3; Alloc Cache K_block_cache 4;
        Alloc Vmalloc K_read_page 5; Alloc Kmalloc K_id_table 6;
        Alloc Cache K_fragment_cache 7;
        Free Cache 4; Free Cache 7; Free Kmalloc 6; Free Vmalloc 5;
        Free Vmalloc 2; Free Kmalloc 1; Free Kmalloc 3]
  /\ fault (mem (snd r)) = false.
Proof. vm_compute. repeat split; reflexivity. Qed.

(** *** Symbolic execution

    [exec_in Htr], for [Htr : tr = trace H E n s] with [s] explicit,
    follows the function statement by statement, splitting on what the
    environment answers, until [tr] is an explicit list of states. *)

Ltac red_state_in Htr :=
  cbv beta iota zeta delta
      [step goto leave in_sb in_msblk in_world
       pc wd sblk root root_inode err retval sb msblk mem
       set_pc set_wd set_sblk set_root set_root_inode set_err set_retval
       set_sb set_msblk set_mem
       kzalloc vmalloc squashfs_cache_init new_inode d_alloc_root acquire
       kfree vfree squashfs_cache_delete iput iget_failed release load_table
       brk klog fault
       s_fs_info s_magic s_flags s_op s_export_op s_root
       set_s_fs_info set_s_magic set_s_flags set_s_op set_s_export_op
       set_s_root
       devblksize devblksize_log2 block_cache fragment_cache read_page
       id_table fragment_index meta_index stream_workspace
       inode_lookup_table inode_table directory_table block_size block_log
       bytes_used inodes
       set_devblksize set_devblksize_log2 set_block_cache
       set_fragment_cache set_read_page set_id_table set_fragment_index
       set_meta_index set_stream_workspace set_inode_lookup_table
       set_inode_table set_directory_table set_block_size set_block_log
       set_bytes_used set_inodes
       zeroed NULL ENOMEM EINVAL app
       owned_by owner fold_left track allocator_eqb is_live
       N.eqb N.succ Pos.succ Pos.eqb Z.opp negb orb andb] in Htr.

Ltac known_ptr_in Htr :=
  repeat match type of Htr with
  | context [IS_ERR (Npos ?p)] => change (IS_ERR (Npos p)) with false in Htr
  | context [IS_ERR N0] => change (IS_ERR N0) with false in Htr
  | context [IS_ERR (ERR_PTR ?e)] =>
      rewrite (IS_ERR_ERR_PTR e) in Htr by assumption
  | context [s32 (PTR_ERR (ERR_PTR ?e))] =>
      rewrite (PTR_ERR_ERR_PTR e) in Htr by assumption
  end.

Ltac norm_in Htr :=
  red_state_in Htr; repeat (progress known_ptr_in Htr; red_state_in Htr).

Ltac errno_range :=
  repeat match goal with
  | Hok : errno_ok (Load_error ?e) = true |- _ => apply errno_ok_error in Hok
  | Hok : errno_ok Loaded = true |- _ => clear Hok
  end.

Ltac branch_in Htr :=
  match type of Htr with
  | context [match ?c with Loaded => _ | Load_error _ => _ end] =>
      match goal with Hk : c = _ |- _ => rewrite Hk in Htr end
  | context [match ?c with Loaded => _ | Load_error _ => _ end] =>
      let Hc := fresh "Hload" in
      destruct c eqn:Hc; errno_range
  | context [if ?c then _ else _] =>
      match goal with Hk : c = _ |- _ => rewrite Hk in Htr end
  | context [if ?c then _ else _] =>
      lazymatch c with
      | context [if _ then _ else _] => fail
      | IS_ERR _ => fail 1000 "an error pointer of unknown range"
      | _ => let Hc := fresh "Hcond" in destruct c eqn:Hc
      end
  end.

Ltac settle_in Htr := norm_in Htr; repeat (branch_in Htr; norm_in Htr).

Ltac exec_in Htr :=
  cbv [states fuel entry unmounted] in Htr;
  repeat (first
    [ rewrite trace_returned in Htr by reflexivity
    | rewrite trace_S in Htr; settle_in Htr ]).

(** [mount H E flags] names the states of the attempt and executes
    it. *)
Ltac mount H E flags :=
  let tr := fresh "tr" in
  let Htr := fresh "Htr" in
  remember (states H E flags) as tr eqn:Htr in *;
  exec_in Htr; subst tr.

(** Hypotheses on booleans, split into their atoms before the
    execution and turned into arithmetic after it. *)
Ltac bool_hyps :=
  repeat match goal with
  | Hb : andb _ _ = true |- _ => apply andb_prop in Hb; destruct Hb
  | Hb : negb _ = true |- _ => apply negb_true_iff in Hb
  | Hb : negb _ = false |- _ => apply negb_false_iff in Hb
  | Hb : orb _ _ = false |- _ => apply orb_false_elim in Hb; destruct Hb
  end.

Ltac to_Z :=
  repeat match goal with
  | Hb : (_ <? _) = true |- _ => apply Z.ltb_lt in Hb
  | Hb : (_ <? _) = false |- _ => apply Z.ltb_ge in Hb
  | Hb : (_ =? _) = true |- _ => apply Z.eqb_eq in Hb
  | Hb : (_ =? _) = false |- _ => apply Z.eqb_neq in Hb
  end.

Ltac unfold_fields :=
  unfold superblock_read, magic_ok, version_ok, bounds_ok, others_succeed,
    sb_magic, sb_bytes_used, sb_block_size, sb_block_log, sb_inodes,
    sb_fragments, sb_root_offset, sb_lookup_table_start in *.

(** Evaluation of the observations on an explicit list of states. *)
Ltac crunch :=
  cbv beta iota zeta delta
      [visits state_at existsb forallb find last repeat filter length app
       fold_left fst snd label_eqb rank Nat.eqb
       pc wd sblk root root_inode err retval sb msblk mem
       brk klog fault
       s_fs_info s_magic s_flags s_op s_export_op s_root
       devblksize devblksize_log2 block_cache fragment_cache read_page
       id_table fragment_index meta_index stream_workspace
       inode_lookup_table inode_table directory_table block_size block_log
       bytes_used inodes
       balanced released_once obtained live_kind only_scratch
       allocs frees is_live owned_by owner track allocator_eqb kind_eqb
       step_of step_of_kind failure_of
       NULL ENOMEM EINVAL MAX_ERRNO
       N.eqb N.succ Pos.succ Pos.eqb Z.opp negb orb andb implb] in *.

(** ** The sanity checks *)

(** C5: a superblock that passes the magic and the version/compression
    gates is rejected with [-EINVAL] when [bytes_used] is negative or
    exceeds the size of the device, or [block_size] exceeds
    [SQUASHFS_FILE_SIZE], or [block_log] exceeds [SQUASHFS_FILE_LOG], or
    the offset of the root inode exceeds [SQUASHFS_METADATA_SIZE].  The
    checks run in this order and the first that fails ends the
    validation: the later ones are not executed, nor is any of the
    acquisition steps. *)
Theorem sanity_checks_reject :
  forall H E flags,
    superblock_read E = true ->
    magic_ok H E = true ->
    version_ok H E = true ->
    let bad_bytes :=
      sb_bytes_used E < 0 \/ r_i_size_read E < sb_bytes_used E in
    let bad_size := SQUASHFS_FILE_SIZE H < sb_block_size E in
    let bad_log := SQUASHFS_FILE_LOG H < sb_block_log E in
    let bad_root := SQUASHFS_METADATA_SIZE H < sb_root_offset H E in
    bad_bytes \/ bad_size \/ bad_log \/ bad_root ->
    fst (squashfs_fill_super H E (unmounted flags)) = - EINVAL
    /\ visits H E flags check_bytes_used = true
    /\ (bad_bytes -> visits H E flags check_block_size = false)
    /\ (~ bad_bytes ->
        visits H E flags check_block_size = true
        /\ (bad_size -> visits H E flags check_block_log = false))
    /\ (~ bad_bytes -> ~ bad_size ->
        visits H E flags check_block_log = true
        /\ (bad_log -> visits H E flags check_root_inode = false))
    /\ (~ bad_bytes -> ~ bad_size -> ~ bad_log ->
        visits H E flags check_root_inode = true)
    /\ visits H E flags populate = false
    /\ visits H E flags init_block_cache = false.
Proof.
  intros H E flags Hread Hmagic Hversion bad_bytes bad_size bad_log bad_root
    Hbad.
  subst bad_bytes bad_size bad_log bad_root.
  rewrite fill_super_last. unfold visits. unfold_fields. bool_hyps.
  destruct (s64 (le64_to_cpu (Disk.bytes_used (disk E))) <? 0) eqn:Hb1;
  [|destruct (r_i_size_read E
              <? s64 (le64_to_cpu (Disk.bytes_used (disk E)))) eqn:Hb2;
  [|destruct (SQUASHFS_FILE_SIZE H
              <? le32_to_cpu (Disk.block_size (disk E))) eqn:Hb3;
  [|destruct (SQUASHFS_FILE_LOG H
              <? le16_to_cpu (Disk.block_log (disk E))) eqn:Hb4;
  [|destruct (SQUASHFS_METADATA_SIZE H
              <? SQUASHFS_INODE_OFFSET H
                   (s64 (le64_to_cpu (Disk.root_inode (disk E))))) eqn:Hb5;
  [|exfalso; to_Z; lia]]]]].
  all: mount H E flags; crunch; to_Z;
    repeat split; intros; try reflexivity; try lia; try discriminate.
Qed.

Lemma sanity_checks_reject_witness :
  superblock_read truncated_mount = true
  /\ magic_ok squashfs_4_0 truncated_mount = true
  /\ version_ok squashfs_4_0 truncated_mount = true
  /\ r_i_size_read truncated_mount < sb_bytes_used truncated_mount
  /\ fst (squashfs_fill_super squashfs_4_0 truncated_mount (unmounted 0))
     = - EINVAL.
Proof.
  assert (Hbig : r_i_size_read truncated_mount
                 < sb_bytes_used truncated_mount) by reflexivity.
  refine (conj eq_refl (conj eq_refl (conj eq_refl (conj Hbig _)))).
  apply (sanity_checks_reject squashfs_4_0 truncated_mount 0);
    [reflexivity | reflexivity | reflexivity | left; right; exact Hbig].
Defined.

(** ** The magic check *)

(** C3, as the code has it: when the superblock has been read and its
    magic is not [SQUASHFS_MAGIC], the mount fails with [-EINVAL].  At
    the rejection the mount state record, the decompression workspace
    and the scratch copy of the superblock are allocated, and nothing
    else; none of the later statements runs, and the three blocks are
    released before the function returns. *)
Theorem wrong_magic_rejected :
  forall H E flags,
    superblock_read E = true ->
    magic_ok H E = false ->
    let r := squashfs_fill_super H E (unmounted flags) in
    fst r = - EINVAL
    /\ (exists s,
          state_at H E flags failed_mount = Some s
          /\ klog (mem (wd s))
             = [Alloc Kmalloc K_msblk 1; Alloc Vmalloc K_workspace 2;
                Alloc Kmalloc K_sblk 3]
          /\ fault (mem (wd s)) = false)
    /\ (forall l,
          (rank check_supported <= rank l <= rank alloc_root_dentry)%nat ->
          visits H E flags l = false)
    /\ balanced (klog (mem (snd r))) = true
    /\ fault (mem (snd r)) = false
    /\ s_fs_info (sb (snd r)) = NULL.
Proof.
  intros H E flags Hread Hmagic r. subst r.
  rewrite fill_super_last. unfold visits, state_at. unfold_fields. bool_hyps.
  mount H E flags.
  repeat split; try reflexivity.
  - eexists. repeat split; reflexivity.
  - intros l Hl. destruct l; cbn in Hl; try lia; reflexivity.
Qed.

Lemma wrong_magic_rejected_witness :
  superblock_read foreign_mount = true
  /\ magic_ok squashfs_4_0 foreign_mount = false
  /\ fst (squashfs_fill_super squashfs_4_0 foreign_mount (unmounted 0))
     = - EINVAL.
Proof.
  refine (conj eq_refl (conj eq_refl _)).
  apply (wrong_magic_rejected squashfs_4_0 foreign_mount 0); reflexivity.
Defined.

(** C3, as stated, fails: on an image with a foreign magic the
    decompression workspace has been allocated, and is live, when the
    superblock is rejected. *)
Lemma wrong_magic_workspace_allocated :
  magic_ok squashfs_4_0 foreign_mount = false
  /\ exists s,
       state_at squashfs_4_0 foreign_mount 0 failed_mount = Some s
       /\ only_scratch (klog (mem (wd s))) = false
       /\ owned_by Vmalloc 2 (klog (mem (wd s))) = true.
Proof.
  split; [vm_compute; reflexivity|].
  eexists. split; [vm_compute; reflexivity|].
  split; vm_compute; reflexivity.
Qed.

(** ** Failure of an acquisition step *)

Ltac split_failure Hfail :=
  cbv [failure_of] in Hfail;
  repeat match type of Hfail with
  | context [match ?c with Loaded => _ | Load_error _ => _ end] =>
      let Hc := fresh "Hload" in destruct c eqn:Hc
  | context [if ?c then _ else _] =>
      let Hc := fresh "Hcond" in destruct c eqn:Hc
  end;
  try discriminate Hfail;
  injection Hfail as Hfail; errno_range.

(** C1: when an acquisition step is reached and its primitive fails,
    [squashfs_fill_super] returns the error of that primitive, with
    [sb->s_fs_info] cleared, every block it had obtained released
    exactly once and by the matching primitive, and nothing live: in
    the numbering of the specification, the blocks of the steps before
    the failing one are released once, those of the failing step and of
    the later ones are absent, and so are the scratch copy of the
    superblock and the mount state record. *)
Theorem fill_super_unwinds :
  forall H E flags l k e,
    loaders_ok E = true ->
    step_of l = Some k ->
    visits H E flags l = true ->
    failure_of E l = Some e ->
    let r := squashfs_fill_super H E (unmounted flags) in
    let log := klog (mem (snd r)) in
    fst r = e
    /\ s_fs_info (sb (snd r)) = NULL
    /\ fault (mem (snd r)) = false
    /\ balanced log = true
    /\ (forall j n, step_of_kind j = Some n -> (n < k)%nat ->
        released_once j log = true)
    /\ (forall j n, step_of_kind j = Some n -> (k <= n)%nat ->
        live_kind j log = false)
    /\ released_once K_sblk log = true
    /\ live_kind K_sblk log = false
    /\ live_kind K_msblk log = false.
Proof.
  intros H E flags l k e Hok Hstep Hvisit Hfail r log. subst log r.
  apply loaders_ok_split in Hok. destruct Hok as (Hok1 & Hok2 & Hok3).
  rewrite fill_super_last. unfold visits in Hvisit.
  destruct l; try discriminate Hstep; clear Hstep; split_failure Hfail.
  all: mount H E flags; try discriminate Hvisit; clear Hvisit.
  all: repeat split; intros; try (destruct j); subst;
    try reflexivity; try congruence.
Qed.

Lemma fill_super_unwinds_witness :
  loaders_ok starved_mount = true
  /\ step_of load_fragment_index = Some 6%nat
  /\ visits squashfs_4_0 starved_mount 0 load_fragment_index = true
  /\ failure_of starved_mount load_fragment_index = Some (- EIO)
  /\ fst (squashfs_fill_super squashfs_4_0 starved_mount (unmounted 0))
     = - EIO
  /\ s_fs_info
       (sb (snd (squashfs_fill_super squashfs_4_0 starved_mount
                   (unmounted 0)))) = NULL.
Proof.
  assert (H1 : loaders_ok starved_mount = true) by (vm_compute; reflexivity).
  assert (H2 : step_of load_fragment_index = Some 6%nat) by reflexivity.
  assert (H3 : visits squashfs_4_0 starved_mount 0 load_fragment_index
               = true) by (vm_compute; reflexivity).
  assert (H4 : failure_of starved_mount load_fragment_index = Some (- EIO))
    by (vm_compute; reflexivity).
  pose proof (fill_super_unwinds squashfs_4_0 starved_mount 0
                load_fragment_index 6 (- EIO) H1 H2 H3 H4) as Hw.
  cbv zeta in Hw.
  exact (conj H1 (conj H2 (conj H3 (conj H4
           (conj (proj1 Hw) (proj1 (proj2 Hw))))))).
Defined.

(** ** The table fields *)

Ltac crunch_tables :=
  cbv beta iota zeta delta
      [forallb tables_ok unwind_ok tables_valid table_valid loaded_as
       existsb repeat label_eqb rank Nat.eqb
       pc wd sb msblk mem klog s_fs_info
       id_table fragment_index inode_lookup_table
       owned_by owner fold_left track allocator_eqb kind_eqb
       NULL N.eqb Pos.eqb negb orb andb];
  repeat match goal with
  | |- context [IS_ERR (Npos ?p)] => change (IS_ERR (Npos p)) with false
  | |- context [IS_ERR N0] => change (IS_ERR N0) with false
  end;
  cbv beta iota zeta delta [negb orb andb].

(** C10: in every state [squashfs_fill_super] goes through, from entry
    to return, for as long as the mount state exists each of
    [id_table], [fragment_index] and [inode_lookup_table] is null or an
    array its loader returned, still owned, and not an error pointer;
    and the unwind path is entered with the mount state attached and
    the three fields in that condition.  A state is what holds between
    two statements, a statement being taken with its failure branch. *)
Theorem tables_never_error_pointers :
  forall H E flags,
    loaders_ok E = true ->
    forallb tables_ok (states H E flags) = true
    /\ forallb unwind_ok (states H E flags) = true.
Proof.
  intros H E flags Hok.
  apply loaders_ok_split in Hok. destruct Hok as (Hok1 & Hok2 & Hok3).
  mount H E flags; split; crunch_tables; reflexivity.
Qed.

Lemma tables_never_error_pointers_witness :
  loaders_ok starved_mount = true
  /\ forallb tables_ok (states squashfs_4_0 starved_mount 0) = true
  /\ forallb unwind_ok (states squashfs_4_0 starved_mount 0) = true.
Proof.
  assert (H1 : loaders_ok starved_mount = true) by (vm_compute; reflexivity).
  exact (conj H1 (tables_never_error_pointers squashfs_4_0 starved_mount 0
                    H1)).
Defined.

(** The invariant does exclude error pointers: it fails on the state
    in which a field holds what a failed loader returned. *)
Example tables_ok_excludes_error_pointers :
  forall s,
    find (fun s => label_eqb (pc s) failed_mount)
      (states squashfs_4_0 starved_mount 0) = Some s ->
    tables_ok s = true /\ tables_ok (stale_error s) = false.
Proof.
  intros s Hs. vm_compute in Hs. injection Hs as <-.
  split; vm_compute; reflexivity.
Qed.

(** The mount is all or nothing: whenever [squashfs_fill_super] does
    not return 0, whether a validation check or an acquisition step
    failed, [sb->s_fs_info] is cleared, no fault has occurred and every
    block obtained has been released exactly once. *)
Theorem fill_super_all_or_nothing :
  forall H E flags,
    loaders_ok E = true ->
    let r := squashfs_fill_super H E (unmounted flags) in
    fst r <> 0 ->
    s_fs_info (sb (snd r)) = NULL
    /\ fault (mem (snd r)) = false
    /\ balanced (klog (mem (snd r))) = true.
Proof.
  intros H E flags Hok r Hret. subst r.
  apply loaders_ok_split in Hok. destruct Hok as (Hok1 & Hok2 & Hok3).
  rewrite fill_super_last in *.
  mount H E flags; crunch; try (exfalso; apply Hret; reflexivity);
    repeat split; reflexivity.
Qed.

(** ** The export capability *)

Ltac loaded_hyps :=
  repeat match goal with
  | Hl : loaded Loaded = true |- _ => clear Hl
  | Hl : loaded (Load_error _) = true |- _ => discriminate Hl
  | Hl : loaded ?r = true |- _ =>
      let Hc := fresh "Hload" in destruct r eqn:Hc
  end.

Ltac split_orb :=
  repeat match goal with
  | Hb : orb ?a _ = true |- _ =>
      let Hc := fresh "Hcond" in
      destruct a eqn:Hc; cbn [orb] in Hb; bool_hyps
  end.

(** C7: on a mount that succeeds the export operations are installed
    exactly when the inode lookup table is present.  When
    [lookup_table_start] is [SQUASHFS_INVALID_BLK] and every other step
    succeeds, the mount succeeds with no export operations and no
    lookup table, none having been allocated; when it is another value,
    the load succeeds and every other step does, the mount succeeds
    with the export operations installed and the table owned. *)
Theorem export_iff_lookup_table :
  forall H E flags,
    loaders_ok E = true ->
    let r := squashfs_fill_super H E (unmounted flags) in
    let w := snd r in
    (others_succeed H E = true ->
     sb_lookup_table_start E = SQUASHFS_INVALID_BLK H ->
     fst r = 0
     /\ s_export_op (sb w) = false
     /\ inode_lookup_table (msblk w) = NULL
     /\ obtained K_inode_lookup_table (klog (mem w)) = false)
    /\ (others_succeed H E = true ->
        sb_lookup_table_start E <> SQUASHFS_INVALID_BLK H ->
        r_read_inode_lookup_table E = Loaded ->
        fst r = 0
        /\ s_export_op (sb w) = true
        /\ inode_lookup_table (msblk w) <> NULL
        /\ owned_by Kmalloc (inode_lookup_table (msblk w)) (klog (mem w))
           = true)
    /\ (fst r = 0 ->
        s_export_op (sb w)
        = negb (N.eqb (inode_lookup_table (msblk w)) NULL)).
Proof.
  intros H E flags Hok r w. subst w r.
  apply loaders_ok_split in Hok. destruct Hok as (Hok1 & Hok2 & Hok3).
  rewrite fill_super_last. unfold_fields.
  split; [|split].
  - intros Hall Habsent. apply Z.eqb_eq in Habsent.
    unfold_fields; bool_hyps; split_orb; loaded_hyps.
    all: mount H E flags; crunch; repeat split; reflexivity.
  - intros Hall Hpresent Hload. apply Z.eqb_neq in Hpresent.
    unfold_fields; bool_hyps; split_orb; loaded_hyps.
    all: mount H E flags; crunch; repeat split; try reflexivity;
      discriminate.
  - intros Hret.
    mount H E flags; crunch; to_Z; try reflexivity;
      try discriminate Hret; try lia; try congruence.
Qed.

Lemma export_iff_lookup_table_witness :
  loaders_ok plain_mount = true
  /\ others_succeed squashfs_4_0 plain_mount = true
  /\ sb_lookup_table_start plain_mount = SQUASHFS_INVALID_BLK squashfs_4_0
  /\ fst (squashfs_fill_super squashfs_4_0 plain_mount (unmounted 0)) = 0
  /\ s_export_op
       (sb (snd (squashfs_fill_super squashfs_4_0 plain_mount
                   (unmounted 0)))) = false.
Proof.
  assert (H1 : loaders_ok plain_mount = true) by (vm_compute; reflexivity).
  assert (H2 : others_succeed squashfs_4_0 plain_mount = true)
    by (vm_compute; reflexivity).
  assert (H3 : sb_lookup_table_start plain_mount
               = SQUASHFS_INVALID_BLK squashfs_4_0)
    by (vm_compute; reflexivity).
  pose proof (export_iff_lookup_table squashfs_4_0 plain_mount 0 H1) as Hw.
  cbv zeta in Hw. destruct Hw as [Habsent _].
  specialize (Habsent H2 H3).
  exact (conj H1 (conj H2 (conj H3
           (conj (proj1 Habsent) (proj1 (proj2 Habsent)))))).
Defined.

(** ** The capacity report *)

Lemma shiftr_ceil_div a n :
  0 <= n -> Z.shiftr (a - 1) n + 1 = ceil_div a (2 ^ n).
Proof.
  intros Hn. unfold ceil_div.
  rewrite Z.shiftr_div_pow2 by assumption.
  assert (Hp : 0 < 2 ^ n) by (apply Z.pow_pos_nonneg; lia).
  replace (a + 2 ^ n - 1) with (a - 1 + 1 * 2 ^ n) by lia.
  rewrite Z.div_add by lia. reflexivity.
Qed.

Lemma u16_nonneg x : 0 <= u16 x.
Proof. unfold u16. apply Z.mod_pos_bound. reflexivity. Qed.

(** C6, as the code has it: after a successful mount [squashfs_statfs]
    returns 0 and reports the block size of the superblock, a block
    count of [bytes_used] divided by two to the [block_log], rounded
    up, no free or available blocks, the inode count of the
    superblock, no free inodes and [SQUASHFS_NAME_LEN]; the block count
    is [bytes_used] divided by [block_size], rounded up, when
    [block_size] is two to the [block_log].  This covers
    [bytes_used = 0], where the count is 0. *)
Theorem statfs_reports :
  forall H E flags,
    loaders_ok E = true ->
    let r := squashfs_fill_super H E (unmounted flags) in
    fst r = 0 ->
    let st := snd (squashfs_statfs H (snd r)) in
    fst (squashfs_statfs H (snd r)) = 0
    /\ f_type st = SQUASHFS_MAGIC H
    /\ f_bsize st = sb_block_size E
    /\ f_blocks st = ceil_div (sb_bytes_used E) (2 ^ sb_block_log E)
    /\ (sb_block_size E = 2 ^ sb_block_log E ->
        f_blocks st = ceil_div (sb_bytes_used E) (sb_block_size E))
    /\ (sb_bytes_used E = 0 -> f_blocks st = 0)
    /\ f_bfree st = 0
    /\ f_bavail st = 0
    /\ f_files st = sb_inodes E
    /\ f_ffree st = 0
    /\ f_namelen st = SQUASHFS_NAME_LEN H.
Proof.
  intros H E flags Hok r Hret st. subst st r.
  apply loaders_ok_split in Hok. destruct Hok as (Hok1 & Hok2 & Hok3).
  rewrite fill_super_last in *.
  assert (Hblocks :
    forall b l, Z.shiftr (b - 1) (le16_to_cpu l) + 1
                = ceil_div b (2 ^ le16_to_cpu l)).
  { intros. apply shiftr_ceil_div. apply u16_nonneg. }
  unfold_fields.
  mount H E flags; crunch; to_Z;
    try discriminate Hret; try lia; try congruence.
  all: cbv [squashfs_statfs fst snd f_type f_bsize f_blocks f_bfree
            f_bavail f_files f_ffree f_namelen msblk block_size block_log
            bytes_used inodes];
    repeat split; try reflexivity; try apply Hblocks.
  all: try (intros Hpow; rewrite Hpow; apply Hblocks).
  all: intros Hzero; rewrite Hblocks, Hzero; unfold ceil_div;
    apply Z.div_small; split; [|lia];
    assert (0 < 2 ^ le16_to_cpu (Disk.block_log (disk E)))
      by (apply Z.pow_pos_nonneg; [lia | apply u16_nonneg]); lia.
Qed.

Lemma statfs_reports_witness :
  loaders_ok plain_mount = true
  /\ fst (squashfs_fill_super squashfs_4_0 plain_mount (unmounted 0)) = 0
  /\ f_blocks
       (snd (squashfs_statfs squashfs_4_0
               (snd (squashfs_fill_super squashfs_4_0 plain_mount
                       (unmounted 0)))))
     = ceil_div (sb_bytes_used plain_mount) (2 ^ sb_block_log plain_mount).
Proof.
  assert (H1 : loaders_ok plain_mount = true) by (vm_compute; reflexivity).
  assert (H2 : fst (squashfs_fill_super squashfs_4_0 plain_mount
                      (unmounted 0)) = 0) by (vm_compute; reflexivity).
  pose proof (statfs_reports squashfs_4_0 plain_mount 0 H1 H2) as Hw.
  cbv zeta in Hw.
  exact (conj H1 (conj H2 (proj1 (proj2 (proj2 (proj2 Hw)))))).
Defined.

(** C6, as stated, fails: the image whose [block_log] is 12 and whose
    [block_size] is 131072 passes the validation, and for its 262144
    bytes [squashfs_statfs] reports 64 blocks of 131072 bytes, where
    the quotient rounded up is 2. *)
Lemma statfs_block_count_not_by_block_size :
  let w := snd (squashfs_fill_super squashfs_4_0 skewed_mount
                  (unmounted 0)) in
  let st := snd (squashfs_statfs squashfs_4_0 w) in
  fst (squashfs_fill_super squashfs_4_0 skewed_mount (unmounted 0)) = 0
  /\ f_bsize st = 131072
  /\ f_blocks st = 64
  /\ ceil_div (bytes_used (msblk w)) (block_size (msblk w)) = 2
  /\ f_blocks st <> ceil_div (bytes_used (msblk w)) (block_size (msblk w)).
Proof.
  cbv zeta.
  split; [vm_compute; reflexivity|].
  split; [vm_compute; reflexivity|].
  split; [vm_compute; reflexivity|].
  split; [vm_compute; reflexivity|].
  vm_compute. discriminate.
Qed.

(** C9: [squashfs_fill_super] never compares [block_size] with two to
    the [block_log].  There is a superblock in which they differ that
    passes every check and mounts; [squashfs_statfs] then reports its
    [block_size] as the block size and counts the blocks by shifting
    [bytes_used] by its [block_log], and the two figures disagree: the
    count is not the number of blocks of the reported size. *)
Theorem block_size_and_block_log_unrelated :
  exists E : env,
    let w := snd (squashfs_fill_super squashfs_4_0 E (unmounted 0)) in
    let st := snd (squashfs_statfs squashfs_4_0 w) in
    sb_block_size E <> 2 ^ sb_block_log E
    /\ superblock_read E = true
    /\ magic_ok squashfs_4_0 E = true
    /\ version_ok squashfs_4_0 E = true
    /\ bounds_ok squashfs_4_0 E = true
    /\ fst (squashfs_fill_super squashfs_4_0 E (unmounted 0)) = 0
    /\ mounted w = true
    /\ f_bsize st = sb_block_size E
    /\ f_blocks st = Z.shiftr (sb_bytes_used E - 1) (sb_block_log E) + 1
    /\ f_blocks st <> ceil_div (sb_bytes_used E) (f_bsize st).
Proof.
  exists skewed_mount. cbv zeta.
  split; [vm_compute; discriminate|].
  repeat (split; [vm_compute; reflexivity|]).
  vm_compute. discriminate.
Qed.

(** ** Unmount *)

(** C2 fails on the code: [squashfs_put_super] does not release the
    inode lookup table.  After the mount of the full image, which
    succeeds and loads the table, [squashfs_put_super] clears
    [sb->s_fs_info] without a fault and releases the two caches, the
    read-ahead buffer, the id table, the fragment index, the workspace
    and the mount state record, each once; the inode lookup table is
    never released and stays live, with no pointer to it left. *)
Theorem put_super_leaks_inode_lookup_table :
  let w := snd (squashfs_fill_super squashfs_4_0 full_mount (unmounted 0)) in
  let w' := squashfs_put_super w in
  let log := klog (mem w') in
  fst (squashfs_fill_super squashfs_4_0 full_mount (unmounted 0)) = 0
  /\ mounted w = true
  /\ s_fs_info (sb w') = NULL
  /\ fault (mem w') = false
  /\ forallb (fun k => negb (live_kind k log) && released_once k log)
       [K_block_cache; K_fragment_cache; K_read_page; K_id_table;
        K_fragment_index; K_workspace; K_msblk] = true
  /\ inode_lookup_table (msblk w) <> NULL
  /\ is_live (inode_lookup_table (msblk w)) log = true
  /\ frees (inode_lookup_table (msblk w)) log = 0%nat
  /\ live_kind K_inode_lookup_table log = true.
Proof.
  cbv zeta.
  repeat (split; [vm_compute; reflexivity|]).
  split; [vm_compute; discriminate|].
  repeat (split; [vm_compute; reflexivity|]).
  vm_compute; reflexivity.
Qed.

(** *** Releases on an arbitrary world *)

Lemma owner_app p log ev : owner p (log ++ [ev]) = track p (owner p log) ev.
Proof. unfold owner. now rewrite fold_left_app. Qed.

Lemma sb_release f p w : sb (release f p w) = sb w.
Proof. unfold release. destruct (N.eqb p NULL); reflexivity. Qed.

Lemma msblk_release f p w : msblk (release f p w) = msblk w.
Proof. unfold release. destruct (N.eqb p NULL); reflexivity. Qed.

Lemma release_fault f p w :
  held f p w = true -> fault (mem (release f p w)) = fault (mem w).
Proof.
  unfold held, release. destruct (N.eqb p NULL); [reflexivity|].
  cbn. intros Hh. rewrite Hh. apply orb_false_r.
Qed.

Lemma held_release f p g q w :
  held g q w = true -> apart p q = true -> held g q (release f p w) = true.
Proof.
  unfold held, apart, release.
  destruct (N.eqb p NULL); [trivial|].
  destruct (N.eqb q NULL); [reflexivity|].
  cbn. intros Hh Hpq. unfold owned_by in *.
  rewrite owner_app. cbn [track].
  destruct (N.eqb p q); [discriminate Hpq | exact Hh].
Qed.

Lemma release_dead f p w :
  N.eqb p NULL = false -> is_live p (klog (mem (release f p w))) = false.
Proof.
  intros Hp. unfold release. rewrite Hp. cbn. unfold is_live.
  rewrite owner_app. cbn [track]. now rewrite N.eqb_refl.
Qed.

Lemma dead_release f p q w :
  is_live q (klog (mem w)) = false ->
  is_live q (klog (mem (release f p w))) = false.
Proof.
  unfold release. destruct (N.eqb p NULL); [trivial|].
  cbn. unfold is_live. rewrite owner_app. cbn [track].
  destruct (N.eqb p q); [reflexivity | trivial].
Qed.

Create HintDb unmount.
#[local] Hint Resolve held_release dead_release release_dead : unmount.

(** What [squashfs_put_super] does to a mounted state: no fault, the
    state pointer cleared, the mount state record and every block its
    eight [free] calls name dead afterwards; the inode lookup table,
    which none of them names, is as it was. *)
Lemma put_super_mounted w :
  mounted w = true ->
  let w' := squashfs_put_super w in
  let dead p := N.eqb p NULL || negb (is_live p (klog (mem w'))) in
  fault (mem w') = false
  /\ s_fs_info (sb w') = NULL
  /\ msblk w' = msblk w
  /\ forallb dead
       [block_cache (msblk w); fragment_cache (msblk w);
        read_page (msblk w); id_table (msblk w); fragment_index (msblk w);
        meta_index (msblk w); stream_workspace (msblk w);
        s_fs_info (sb w)] = true
  /\ held Kmalloc (inode_lookup_table (msblk w)) w' = true.
Proof.
  unfold mounted. cbn [resources pairwise_apart forallb].
  intros Hm. bool_hyps.
  match goal with Hf : fault (mem w) = false |- _ => rename Hf into Hfault end.
  match goal with
  | Ho : owned_by Kmalloc (s_fs_info (sb w)) _ = true |- _ =>
      rename Ho into Hinfo
  end.
  assert (Hheld : held Kmalloc (s_fs_info (sb w)) w = true).
  { unfold held. rewrite Hinfo. apply orb_true_r. }
  assert (Hlive : is_live (s_fs_info (sb w)) (klog (mem w)) = true).
  { unfold is_live. unfold owned_by in Hinfo.
    destruct (owner (s_fs_info (sb w)) (klog (mem w)));
      [reflexivity | discriminate]. }
  cbv zeta. unfold squashfs_put_super.
  match goal with Hn : N.eqb (s_fs_info (sb w)) NULL = false |- _ =>
    rewrite Hn; rename Hn into Hnull end.
  cbn [negb]. unfold deref. rewrite Hlive.
  unfold kfree, vfree, squashfs_cache_delete.
  cbn [sb msblk mem set_sb s_fs_info set_s_fs_info].
  rewrite !sb_release, !msblk_release.
  repeat split.
  - rewrite !release_fault; auto 12 with unmount.
  - cbn [forallb].
    repeat (apply andb_true_intro; split); try reflexivity.
    all: try match goal with
         | |- orb (N.eqb ?p NULL) _ = true =>
             destruct (N.eqb p NULL) eqn:Hp; [reflexivity|]
         end.
    all: cbn [orb]; try apply negb_true_iff; auto 12 with unmount.
  - change (held Kmalloc (inode_lookup_table (msblk w))
              (release Kmalloc (s_fs_info (sb w))
                 (release Vmalloc (stream_workspace (msblk w))
                    (release Kmalloc (meta_index (msblk w))
                       (release Kmalloc (fragment_index (msblk w))
                          (release Kmalloc (id_table (msblk w))
                             (release Vmalloc (read_page (msblk w))
                                (release Cache (fragment_cache (msblk w))
                                   (release Cache (block_cache (msblk w))
                                      w))))))))
            = true).
    auto 12 with unmount.
Qed.

(** A mount that succeeds leaves a mounted state. *)
Lemma fill_super_mounts H E flags :
  loaders_ok E = true ->
  fst (squashfs_fill_super H E (unmounted flags)) = 0 ->
  mounted (snd (squashfs_fill_super H E (unmounted flags))) = true.
Proof.
  intros Hok Hret.
  apply loaders_ok_split in Hok. destruct Hok as (Hok1 & Hok2 & Hok3).
  rewrite fill_super_last in *.
  mount H E flags; crunch; to_Z;
    try discriminate Hret; try lia; try congruence.
  all: lazy; reflexivity.
Qed.

Lemma put_super_released w :
  N.eqb (s_fs_info (sb w)) NULL = true -> squashfs_put_super w = w.
Proof. intros Hn. unfold squashfs_put_super. now rewrite Hn. Qed.

(** C8: [squashfs_put_super] can be called twice.  On a mounted state,
    and on one that is already released, the first call raises no
    fault (no block is released twice, none is used after its release)
    and leaves [sb->s_fs_info] cleared; the second call then changes
    nothing. *)
Theorem put_super_idempotent :
  forall w,
    mounted w = true \/ released w = true ->
    let w1 := squashfs_put_super w in
    fault (mem w1) = false
    /\ s_fs_info (sb w1) = NULL
    /\ squashfs_put_super w1 = w1
    /\ released (squashfs_put_super w1) = true.
Proof.
  intros w Hw w1.
  assert (Hfirst : fault (mem w1) = false /\ s_fs_info (sb w1) = NULL).
  { subst w1. destruct Hw as [Hm | Hr].
    - pose proof (put_super_mounted w Hm) as Hp. cbv zeta in Hp.
      split; apply Hp.
    - unfold released in Hr. bool_hyps.
      rewrite put_super_released by assumption.
      split; [assumption | now apply N.eqb_eq]. }
  destruct Hfirst as [Hfault Hnull].
  assert (Hsecond : squashfs_put_super w1 = w1).
  { apply put_super_released. rewrite Hnull. reflexivity. }
  repeat split; try assumption.
  rewrite Hsecond. unfold released. rewrite Hnull, Hfault. reflexivity.
Qed.

Lemma put_super_idempotent_witness :
  let w := snd (squashfs_fill_super squashfs_4_0 full_mount (unmounted 0)) in
  mounted w = true
  /\ fault (mem (squashfs_put_super w)) = false
  /\ squashfs_put_super (squashfs_put_super w) = squashfs_put_super w.
Proof.
  cbv zeta.
  assert (H1 : mounted (snd (squashfs_fill_super squashfs_4_0 full_mount
                               (unmounted 0))) = true)
    by (vm_compute; reflexivity).
  pose proof (put_super_idempotent _ (or_introl H1)) as Hw.
  cbv zeta in Hw.
  exact (conj H1 (conj (proj1 Hw) (proj1 (proj2 (proj2 Hw))))).
Defined.

(** * Further properties of the code *)

(** ** Remount *)

(** [squashfs_remount] never fails, sets the read-only bit, leaves every
    other bit of the flags as it was, and changes nothing when applied
    again. *)
Theorem squashfs_remount_forces_read_only :
  forall flags,
    let r := squashfs_remount flags in
    fst r = 0
    /\ Z.testbit (snd r) 0 = true
    /\ (forall i, i <> 0 -> Z.testbit (snd r) i = Z.testbit flags i)
    /\ squashfs_remount (snd r) = r.
Proof.
  intros flags. unfold squashfs_remount, MS_RDONLY. cbn [fst snd].
  repeat split.
  - rewrite Z.lor_spec. change (Z.testbit 1 0) with true. apply orb_true_r.
  - intros i Hi. rewrite Z.lor_spec.
    destruct (Z.ltb_spec i 0).
    + rewrite !Z.testbit_neg_r by lia. reflexivity.
    + replace (Z.testbit 1 i) with false; [apply orb_false_r|].
      symmetry. apply (Z.bits_above_log2 1 i); cbn; lia.
  - f_equal. rewrite <- Z.lor_assoc. reflexivity.
Qed.

(** ** Outcomes of the mount *)

Lemma fill_super_all_or_nothing_witness :
  loaders_ok starved_mount = true
  /\ fst (squashfs_fill_super squashfs_4_0 starved_mount (unmounted 0)) <> 0
  /\ balanced
       (klog (mem (snd (squashfs_fill_super squashfs_4_0 starved_mount
                          (unmounted 0))))) = true.
Proof.
  assert (H1 : loaders_ok starved_mount = true) by (vm_compute; reflexivity).
  assert (H2 : fst (squashfs_fill_super squashfs_4_0 starved_mount
                      (unmounted 0)) <> 0) by (vm_compute; discriminate).
  pose proof (fill_super_all_or_nothing squashfs_4_0 starved_mount 0 H1 H2)
    as Hw.
  exact (conj H1 (conj H2 (proj2 (proj2 Hw)))).
Defined.

Ltac use_conds :=
  repeat match goal with
  | Hc : ?c = _ |- context [?c] => rewrite Hc
  end.

(** The mount succeeds exactly when every step does: the three first
    allocations and the read of the superblock, the magic, version and
    bounds checks, the metadata cache, the read-ahead buffer, the id
    table, the fragment cache and index when there are fragments, the
    inode lookup table when there is one, and the three operations that
    make the root. *)
Theorem fill_super_succeeds_iff :
  forall H E flags,
    loaders_ok E = true ->
    fst (squashfs_fill_super H E (unmounted flags)) = 0 <->
    others_succeed H E = true
    /\ (sb_lookup_table_start E = SQUASHFS_INVALID_BLK H
        \/ r_read_inode_lookup_table E = Loaded).
Proof.
  intros H E flags Hok.
  apply loaders_ok_split in Hok. destruct Hok as (Hok1 & Hok2 & Hok3).
  rewrite fill_super_last. split.
  - intros Hret. unfold_fields. unfold_fields.
    mount H E flags; crunch;
      first [ solve [exfalso; to_Z;
                     first [discriminate Hret | lia | congruence]]
            | idtac ].
    all: split;
      [ use_conds; reflexivity
      | first [left; apply Z.eqb_eq; assumption | right; reflexivity] ].
  - intros [Hall Hlookup].
    unfold_fields; bool_hyps; unfold_fields; bool_hyps; split_orb;
      loaded_hyps.
    all: destruct Hlookup as [Habsent | Hlookup];
      [ apply Z.eqb_eq in Habsent
      | destruct (s64 (le64_to_cpu (Disk.lookup_table_start (disk E)))
                  =? SQUASHFS_INVALID_BLK H) eqn:Habsent ].
    all: mount H E flags; reflexivity.
Qed.

Lemma fill_super_succeeds_iff_witness :
  loaders_ok plain_mount = true
  /\ (fst (squashfs_fill_super squashfs_4_0 plain_mount (unmounted 0)) = 0 <->
      others_succeed squashfs_4_0 plain_mount = true
      /\ (sb_lookup_table_start plain_mount
          = SQUASHFS_INVALID_BLK squashfs_4_0
          \/ r_read_inode_lookup_table plain_mount = Loaded)).
Proof.
  assert (H1 : loaders_ok plain_mount = true) by (vm_compute; reflexivity).
  exact (conj H1 (fill_super_succeeds_iff squashfs_4_0 plain_mount 0 H1)).
Defined.

(** What a successful mount leaves: a mounted state, with the metadata
    cache, the read-ahead buffer, the id table and the workspace
    present; the magic of the format, the read-only flag added to the
    flags of the caller and the super operations installed in the super
    block; a live root dentry on a live root inode; the scratch copy of
    the superblock released once; and a geometry within the bounds that
    were checked. *)
Theorem fill_super_postconditions :
  forall H E flags,
    loaders_ok E = true ->
    let r := squashfs_fill_super H E (unmounted flags) in
    let w := snd r in
    let log := klog (mem w) in
    fst r = 0 ->
    mounted w = true
    /\ block_cache (msblk w) <> NULL
    /\ read_page (msblk w) <> NULL
    /\ id_table (msblk w) <> NULL
    /\ stream_workspace (msblk w) <> NULL
    /\ s_magic (sb w) = SQUASHFS_MAGIC H
    /\ s_flags (sb w) = Z.lor flags MS_RDONLY
    /\ s_op (sb w) = true
    /\ owned_by Dentry (s_root (sb w)) log = true
    /\ live_kind K_root_inode log = true
    /\ released_once K_sblk log = true
    /\ live_kind K_sblk log = false
    /\ 0 <= bytes_used (msblk w) <= r_i_size_read E
    /\ block_size (msblk w) <= SQUASHFS_FILE_SIZE H
    /\ block_log (msblk w) <= SQUASHFS_FILE_LOG H
    /\ inodes (msblk w) = sb_inodes E.
Proof.
  intros H E flags Hok r w log Hret. subst log w r.
  apply loaders_ok_split in Hok. destruct Hok as (Hok1 & Hok2 & Hok3).
  rewrite fill_super_last in *. unfold_fields.
  mount H E flags; crunch; to_Z;
    try discriminate Hret; try lia; try congruence.
  all: repeat split; try assumption; try discriminate;
    try (lazy; reflexivity).
Qed.

Lemma fill_super_postconditions_witness :
  loaders_ok full_mount = true
  /\ fst (squashfs_fill_super squashfs_4_0 full_mount (unmounted 0)) = 0
  /\ mounted (snd (squashfs_fill_super squashfs_4_0 full_mount
                     (unmounted 0))) = true.
Proof.
  assert (H1 : loaders_ok full_mount = true) by (vm_compute; reflexivity).
  assert (H2 : fst (squashfs_fill_super squashfs_4_0 full_mount
                      (unmounted 0)) = 0) by (vm_compute; reflexivity).
  pose proof (fill_super_postconditions squashfs_4_0 full_mount 0 H1 H2)
    as Hw.
  exact (conj H1 (conj H2 (proj1 Hw))).
Defined.

(** The fragment count decides the fragment subsystem.  With no
    fragments the statements that create the fragment cache and load the
    fragment index are never reached, whatever else happens; with
    fragments, a mount that succeeds has both, live. *)
Theorem fragments_decide_fragment_subsystem :
  forall H E flags,
    loaders_ok E = true ->
    let r := squashfs_fill_super H E (unmounted flags) in
    let w := snd r in
    let log := klog (mem w) in
    (sb_fragments E = 0 ->
     visits H E flags init_fragment_cache = false
     /\ visits H E flags load_fragment_index = false
     /\ obtained K_fragment_cache log = false
     /\ obtained K_fragment_index log = false
     /\ fragment_cache (msblk w) = NULL
     /\ fragment_index (msblk w) = NULL)
    /\ (sb_fragments E <> 0 -> fst r = 0 ->
        owned_by Cache (fragment_cache (msblk w)) log = true
        /\ owned_by Kmalloc (fragment_index (msblk w)) log = true).
Proof.
  intros H E flags Hok r w log. subst log w r.
  apply loaders_ok_split in Hok. destruct Hok as (Hok1 & Hok2 & Hok3).
  rewrite fill_super_last. unfold visits. unfold_fields.
  split.
  - intros Hnone. apply Z.eqb_eq in Hnone.
    mount H E flags; repeat split; reflexivity.
  - intros Hsome Hret. apply Z.eqb_neq in Hsome.
    mount H E flags; crunch; to_Z;
      try discriminate Hret; try lia; try congruence.
    all: split; reflexivity.
Qed.

Lemma fragments_decide_fragment_subsystem_witness :
  loaders_ok plain_mount = true
  /\ sb_fragments plain_mount = 0
  /\ visits squashfs_4_0 plain_mount 0 init_fragment_cache = false.
Proof.
  assert (H1 : loaders_ok plain_mount = true) by (vm_compute; reflexivity).
  assert (H2 : sb_fragments plain_mount = 0) by (vm_compute; reflexivity).
  pose proof (fragments_decide_fragment_subsystem squashfs_4_0 plain_mount 0
                H1) as Hw.
  cbv zeta in Hw.
  exact (conj H1 (conj H2 (proj1 (proj1 Hw H2)))).
Defined.

(** ** Early failures *)

(** When the mount state record, the workspace or the scratch copy
    cannot be allocated, [squashfs_fill_super] returns [-ENOMEM] without
    reading the device, with what it had obtained released and
    [sb->s_fs_info] cleared. *)
Theorem first_allocations_fail_with_ENOMEM :
  forall H E flags,
    ok_kzalloc_msblk E && ok_vmalloc_workspace E && ok_kzalloc_sblk E
    = false ->
    let r := squashfs_fill_super H E (unmounted flags) in
    fst r = - ENOMEM
    /\ visits H E flags read_superblock = false
    /\ s_fs_info (sb (snd r)) = NULL
    /\ s_magic (sb (snd r)) = 0
    /\ fault (mem (snd r)) = false
    /\ balanced (klog (mem (snd r))) = true
    /\ obtained K_sblk (klog (mem (snd r))) = false.
Proof.
  intros H E flags Hfail r. subst r.
  rewrite fill_super_last. unfold visits.
  destruct (ok_kzalloc_msblk E) eqn:H1;
    [destruct (ok_vmalloc_workspace E) eqn:H2;
       [destruct (ok_kzalloc_sblk E) eqn:H3; [discriminate Hfail|]|]|].
  all: mount H E flags; repeat split; reflexivity.
Qed.

Lemma first_allocations_fail_with_ENOMEM_witness :
  ok_kzalloc_msblk scratchless_mount
  && ok_vmalloc_workspace scratchless_mount
  && ok_kzalloc_sblk scratchless_mount = false
  /\ fst (squashfs_fill_super squashfs_4_0 scratchless_mount (unmounted 0))
     = - ENOMEM.
Proof.
  assert (H1 : ok_kzalloc_msblk scratchless_mount
               && ok_vmalloc_workspace scratchless_mount
               && ok_kzalloc_sblk scratchless_mount = false)
    by (vm_compute; reflexivity).
  exact (conj H1 (proj1 (first_allocations_fail_with_ENOMEM squashfs_4_0
                           scratchless_mount 0 H1))).
Defined.

(** When the superblock cannot be read, the error of
    [squashfs_read_data] is returned as it is; the magic is not
    examined, [sb->s_magic] is not written, and the three blocks
    obtained by then are released. *)
Theorem read_error_is_returned :
  forall H E flags,
    ok_kzalloc_msblk E = true ->
    ok_vmalloc_workspace E = true ->
    ok_kzalloc_sblk E = true ->
    r_squashfs_read_data E < 0 ->
    let r := squashfs_fill_super H E (unmounted flags) in
    fst r = r_squashfs_read_data E
    /\ visits H E flags check_magic = false
    /\ s_magic (sb (snd r)) = 0
    /\ s_fs_info (sb (snd r)) = NULL
    /\ fault (mem (snd r)) = false
    /\ klog (mem (snd r))
       = [Alloc Kmalloc K_msblk 1; Alloc Vmalloc K_workspace 2;
          Alloc Kmalloc K_sblk 3;
          Free Vmalloc 2; Free Kmalloc 1; Free Kmalloc 3].
Proof.
  intros H E flags H1 H2 H3 Hneg r. subst r.
  apply Z.ltb_lt in Hneg.
  rewrite fill_super_last. unfold visits.
  mount H E flags; repeat split; reflexivity.
Qed.

Lemma read_error_is_returned_witness :
  ok_kzalloc_msblk unreadable_mount = true
  /\ ok_vmalloc_workspace unreadable_mount = true
  /\ ok_kzalloc_sblk unreadable_mount = true
  /\ r_squashfs_read_data unreadable_mount < 0
  /\ fst (squashfs_fill_super squashfs_4_0 unreadable_mount (unmounted 0))
     = - EIO.
Proof.
  assert (H4 : r_squashfs_read_data unreadable_mount < 0) by reflexivity.
  refine (conj eq_refl (conj eq_refl (conj eq_refl (conj H4 _)))).
  exact (proj1 (read_error_is_returned squashfs_4_0 unreadable_mount 0
                  eq_refl eq_refl eq_refl H4)).
Defined.

(** A superblock with the right magic whose major version is not the
    supported one, or whose minor version is above the supported one,
    or whose compression is not zlib, is rejected with [-EINVAL] before
    any of its sizes is looked at; the fields are the 16-bit values of
    the superblock read as [short]. *)
Theorem unsupported_version_rejected :
  forall H E flags,
    superblock_read E = true ->
    magic_ok H E = true ->
    let major := s16 (le16_to_cpu (Disk.s_major (disk E))) in
    let minor := s16 (le16_to_cpu (Disk.s_minor (disk E))) in
    let comp := s16 (le16_to_cpu (Disk.compression (disk E))) in
    major <> SQUASHFS_MAJOR H \/ SQUASHFS_MINOR H < minor
    \/ comp <> ZLIB_COMPRESSION H ->
    let r := squashfs_fill_super H E (unmounted flags) in
    fst r = - EINVAL
    /\ visits H E flags check_bytes_used = false
    /\ bytes_used (msblk (snd r)) = sizeof_squashfs_super_block H
    /\ s_fs_info (sb (snd r)) = NULL
    /\ fault (mem (snd r)) = false
    /\ klog (mem (snd r))
       = [Alloc Kmalloc K_msblk 1; Alloc Vmalloc K_workspace 2;
          Alloc Kmalloc K_sblk 3;
          Free Vmalloc 2; Free Kmalloc 1; Free Kmalloc 3].
Proof.
  intros H E flags Hread Hmagic major minor comp Hbad r. subst r.
  assert (Hgate : supported_squashfs_filesystem H major minor comp
                  = - EINVAL).
  { unfold supported_squashfs_filesystem.
    destruct (Z.ltb_spec major (SQUASHFS_MAJOR H)); [reflexivity|].
    destruct (Z.ltb_spec (SQUASHFS_MAJOR H) major); [reflexivity|].
    destruct (Z.ltb_spec (SQUASHFS_MINOR H) minor); [reflexivity|].
    destruct (Z.eqb_spec comp (ZLIB_COMPRESSION H)); [lia | reflexivity]. }
  subst major minor comp.
  rewrite fill_super_last. unfold visits. unfold_fields. bool_hyps.
  assert (Hneg : (supported_squashfs_filesystem H
                    (s16 (le16_to_cpu (Disk.s_major (disk E))))
                    (s16 (le16_to_cpu (Disk.s_minor (disk E))))
                    (s16 (le16_to_cpu (Disk.compression (disk E)))) <? 0)
                 = true) by (rewrite Hgate; reflexivity).
  mount H E flags. rewrite Hgate. repeat split; reflexivity.
Qed.

Lemma unsupported_version_rejected_witness :
  superblock_read old_mount = true
  /\ magic_ok squashfs_4_0 old_mount = true
  /\ s16 (le16_to_cpu (Disk.s_major (disk old_mount)))
     <> SQUASHFS_MAJOR squashfs_4_0
  /\ fst (squashfs_fill_super squashfs_4_0 old_mount (unmounted 0))
     = - EINVAL.
Proof.
  assert (H3 : s16 (le16_to_cpu (Disk.s_major (disk old_mount)))
               <> SQUASHFS_MAJOR squashfs_4_0)
    by (vm_compute; discriminate).
  refine (conj eq_refl (conj eq_refl (conj H3 _))).
  exact (proj1 (unsupported_version_rejected squashfs_4_0 old_mount 0
                  eq_refl eq_refl (or_introl H3))).
Defined.

(** ** Order and side effects *)

(** Whatever the environment answers, the blocks are obtained in the
    order of the text: mount state record, workspace, scratch copy,
    metadata cache, read-ahead buffer, id table, fragment cache,
    fragment index, inode lookup table, root inode, root dentry, each at
    most once; a meta index is never allocated by the mount. *)
Theorem blocks_obtained_in_order :
  forall H E flags,
    loaders_ok E = true ->
    let log := klog (mem (snd (squashfs_fill_super H E (unmounted flags)))) in
    subseq (alloc_kinds log) acquisition_order = true
    /\ obtained K_meta_index log = false.
Proof.
  intros H E flags Hok log. subst log.
  apply loaders_ok_split in Hok. destruct Hok as (Hok1 & Hok2 & Hok3).
  rewrite fill_super_last.
  mount H E flags; split; reflexivity.
Qed.

Lemma blocks_obtained_in_order_witness :
  loaders_ok full_mount = true
  /\ subseq
       (alloc_kinds
          (klog (mem (snd (squashfs_fill_super squashfs_4_0 full_mount
                             (unmounted 0))))))
       acquisition_order = true.
Proof.
  assert (H1 : loaders_ok full_mount = true) by (vm_compute; reflexivity).
  exact (conj H1 (proj1 (blocks_obtained_in_order squashfs_4_0 full_mount 0
                           H1))).
Defined.

(** What the mount writes into the super block, whether it succeeds or
    not.  [s_op] is installed and the read-only flag added exactly when
    the validation passes; the export operations are installed exactly
    when an inode lookup table was loaded, and stay installed when the
    mount fails afterwards and the table is released; a mount that fails
    never leaves a root dentry; no bit of the flags is ever cleared. *)
Theorem super_block_after_fill_super :
  forall H E flags,
    loaders_ok E = true ->
    let r := squashfs_fill_super H E (unmounted flags) in
    let w := snd r in
    s_op (sb w) = validated H E
    /\ s_flags (sb w)
       = (if validated H E then Z.lor flags MS_RDONLY else flags)
    /\ s_export_op (sb w) = obtained K_inode_lookup_table (klog (mem w))
    /\ (fst r <> 0 -> s_root (sb w) = NULL)
    /\ (superblock_read E = true -> s_magic (sb w) = sb_magic E).
Proof.
  intros H E flags Hok r w. subst w r.
  apply loaders_ok_split in Hok. destruct Hok as (Hok1 & Hok2 & Hok3).
  rewrite fill_super_last. unfold validated. unfold_fields.
  mount H E flags.
  all: cbv beta iota zeta delta [last repeat fst snd retval wd sb mem klog
         s_op s_flags s_export_op s_root s_magic obtained existsb kind_eqb
         orb NULL].
  all: use_conds; cbn [andb negb].
  all: repeat split; try reflexivity.
  all: try (intros Hret; exfalso; apply Hret; reflexivity).
  all: intros Hrd; repeat (apply andb_prop in Hrd; destruct Hrd as [Hrd ?]);
    try apply negb_true_iff in Hrd; congruence.
Qed.

Lemma super_block_after_fill_super_witness :
  loaders_ok starved_mount = true
  /\ s_op (sb (snd (squashfs_fill_super squashfs_4_0 starved_mount
                      (unmounted 0))))
     = validated squashfs_4_0 starved_mount.
Proof.
  assert (H1 : loaders_ok starved_mount = true) by (vm_compute; reflexivity).
  exact (conj H1 (proj1 (super_block_after_fill_super squashfs_4_0
                           starved_mount 0 H1))).
Defined.

(** The mount flags of the caller reach [sb->s_flags] and nothing
    else: the result, the blocks obtained and released, the mount state
    and the other fields of the super block are the same whatever the
    flags. *)
Theorem mount_flags_only_reach_s_flags :
  forall H E flags1 flags2,
    loaders_ok E = true ->
    let r1 := squashfs_fill_super H E (unmounted flags1) in
    let r2 := squashfs_fill_super H E (unmounted flags2) in
    fst r1 = fst r2
    /\ mem (snd r1) = mem (snd r2)
    /\ msblk (snd r1) = msblk (snd r2)
    /\ set_s_flags 0 (sb (snd r1)) = set_s_flags 0 (sb (snd r2)).
Proof.
  intros H E flags1 flags2 Hok r1 r2. subst r2 r1.
  apply loaders_ok_split in Hok. destruct Hok as (Hok1 & Hok2 & Hok3).
  rewrite !fill_super_last.
  mount H E flags1; mount H E flags2; repeat split; reflexivity.
Qed.

Lemma mount_flags_only_reach_s_flags_witness :
  loaders_ok full_mount = true
  /\ fst (squashfs_fill_super squashfs_4_0 full_mount (unmounted 0))
     = fst (squashfs_fill_super squashfs_4_0 full_mount (unmounted 1024)).
Proof.
  assert (H1 : loaders_ok full_mount = true) by (vm_compute; reflexivity).
  exact (conj H1 (proj1 (mount_flags_only_reach_s_flags squashfs_4_0
                           full_mount 0 1024 H1))).
Defined.

(** ** Unmount on arbitrary states *)






(** ** Mount and unmount together *)

(** After a mount that failed, [squashfs_put_super] does nothing. *)
Theorem put_super_after_failed_mount :
  forall H E flags,
    loaders_ok E = true ->
    let w := snd (squashfs_fill_super H E (unmounted flags)) in
    fst (squashfs_fill_super H E (unmounted flags)) <> 0 ->
    squashfs_put_super w = w.
Proof.
  intros H E flags Hok w Hret. subst w.
  apply loaders_ok_split in Hok. destruct Hok as (Hok1 & Hok2 & Hok3).
  rewrite fill_super_last in *.
  mount H E flags;
    first [ exfalso; apply Hret; reflexivity
          | apply put_super_released; reflexivity ].
Qed.

Lemma put_super_after_failed_mount_witness :
  loaders_ok starved_mount = true
  /\ fst (squashfs_fill_super squashfs_4_0 starved_mount (unmounted 0)) <> 0
  /\ squashfs_put_super
       (snd (squashfs_fill_super squashfs_4_0 starved_mount (unmounted 0)))
     = snd (squashfs_fill_super squashfs_4_0 starved_mount (unmounted 0)).
Proof.
  assert (H1 : loaders_ok starved_mount = true) by (vm_compute; reflexivity).
  assert (H2 : fst (squashfs_fill_super squashfs_4_0 starved_mount
                      (unmounted 0)) <> 0) by (vm_compute; discriminate).
  exact (conj H1 (conj H2 (put_super_after_failed_mount squashfs_4_0
                             starved_mount 0 H1 H2))).
Defined.

(** After a mount that succeeded, [squashfs_put_super] raises no fault
    and clears [sb->s_fs_info]; of the blocks of the mount, the root
    inode and the root dentry, which belong to the caller, remain live,
    and so does the inode lookup table when one was loaded; every other
    block is released. *)
Theorem put_super_after_mount :
  forall H E flags,
    loaders_ok E = true ->
    let r := squashfs_fill_super H E (unmounted flags) in
    fst r = 0 ->
    let w' := squashfs_put_super (snd r) in
    fault (mem w') = false
    /\ s_fs_info (sb w') = NULL
    /\ forall k,
         live_kind k (klog (mem w'))
         = match k with
           | K_root_inode | K_root_dentry => true
           | K_inode_lookup_table =>
               negb (sb_lookup_table_start E =? SQUASHFS_INVALID_BLK H)
           | _ => false
           end.
Proof.
  intros H E flags Hok r Hret w'. subst w' r.
  apply loaders_ok_split in Hok. destruct Hok as (Hok1 & Hok2 & Hok3).
  rewrite fill_super_last in *. unfold_fields.
  mount H E flags;
    first [ solve [exfalso; crunch; to_Z;
                   first [discriminate Hret | lia | congruence]]
          | idtac ].
  all: repeat split; try reflexivity.
  all: intros k; use_conds; destruct k; reflexivity.
Qed.

Lemma put_super_after_mount_witness :
  loaders_ok full_mount = true
  /\ fst (squashfs_fill_super squashfs_4_0 full_mount (unmounted 0)) = 0
  /\ fault
       (mem (squashfs_put_super
               (snd (squashfs_fill_super squashfs_4_0 full_mount
                       (unmounted 0))))) = false.
Proof.
  assert (H1 : loaders_ok full_mount = true) by (vm_compute; reflexivity).
  assert (H2 : fst (squashfs_fill_super squashfs_4_0 full_mount
                      (unmounted 0)) = 0) by (vm_compute; reflexivity).
  exact (conj H1 (conj H2 (proj1 (put_super_after_mount squashfs_4_0
                                    full_mount 0 H1 H2)))).
Defined.

(** ** The block count *)



(** ** Loading and unloading the module *)

Lemma cache_live_app c log ev :
  cache_live c (log ++ [ev])
  = match ev with
    | Cache_create d => if N.eqb d c then true else cache_live c log
    | Cache_destroy d => if N.eqb d c then false else cache_live c log
    | _ => cache_live c log
    end.
Proof. unfold cache_live. rewrite fold_left_app. reflexivity. Qed.

Lemma object_live_app c p log ev :
  object_live c p (log ++ [ev])
  = match ev with
    | Object_alloc d q =>
        if N.eqb d c && N.eqb q p then true else object_live c p log
    | Object_free d q =>
        if N.eqb d c && N.eqb q p then false else object_live c p log
    | _ => object_live c p log
    end.
Proof. unfold object_live. rewrite fold_left_app. reflexivity. Qed.

Lemma registered_app log ev :
  registered (log ++ [ev])
  = match ev with
    | Fs_register => true
    | Fs_unregister => false
    | _ => registered log
    end.
Proof. unfold registered. rewrite fold_left_app. reflexivity. Qed.

(** [init_squashfs_fs] succeeds exactly when the inode cache is created
    and the filesystem is registered, and then both are in place.  When
    the cache cannot be created it returns [-ENOMEM] and does not try to
    register; when the registration fails it returns the error of
    [register_filesystem] and destroys the cache it had created.  It
    raises no fault. *)
Theorem init_squashfs_fs_outcome :
  forall (ok : bool) (r : Z) (m : module_state),
    next_block m <> NULL ->
    let res := init_squashfs_fs ok r m in
    let m' := snd res in
    let c := next_block m in
    (fst res = 0 <-> ok = true /\ r = 0)
    /\ mfault m' = mfault m
    /\ (ok = false -> fst res = - ENOMEM /\ mlog m' = mlog m)
    /\ (ok = true -> r <> 0 ->
        fst res = r
        /\ mlog m' = mlog m ++ [Cache_create c; Cache_destroy c]
        /\ cache_live c (mlog m') = false)
    /\ (fst res = 0 ->
        mlog m' = mlog m ++ [Cache_create c; Fs_register]
        /\ squashfs_inode_cachep m' = c
        /\ cache_live c (mlog m') = true
        /\ registered (mlog m') = true).
Proof.
  intros ok r m Hfresh res m' c. subst c m' res.
  apply N.eqb_neq in Hfresh.
  unfold init_squashfs_fs, init_inodecache, kmem_cache_create,
    register_filesystem, destroy_inodecache, kmem_cache_destroy.
  destruct ok; cbn -[cache_live registered];
    [rewrite Hfresh; cbn -[cache_live registered];
     destruct (Z.eqb_spec r 0) as [->|Hr]; cbn -[cache_live registered]|].
  - rewrite registered_app, !cache_live_app, N.eqb_refl, <- !app_assoc.
    cbn. rewrite !orb_false_r.
    intuition (try reflexivity; try congruence).
  - rewrite !cache_live_app, N.eqb_refl, <- !app_assoc.
    cbn. rewrite !orb_false_r.
    intuition (try reflexivity; try congruence; try lia).
  - intuition (try reflexivity; try congruence; try lia).
Qed.

Lemma init_squashfs_fs_outcome_witness :
  next_block unloaded <> NULL
  /\ (fst (init_squashfs_fs true 0 unloaded) = 0 <-> true = true /\ 0 = 0).
Proof.
  assert (H1 : next_block unloaded <> NULL) by discriminate.
  exact (conj H1 (proj1 (init_squashfs_fs_outcome true 0 unloaded H1))).
Defined.

(** Unloading undoes loading: after [init_squashfs_fs] has succeeded,
    [exit_squashfs_fs] unregisters the filesystem and then destroys the
    inode cache, once each and without a fault. *)
Theorem exit_undoes_init :
  forall (ok : bool) (r : Z) (m : module_state),
    next_block m <> NULL ->
    fst (init_squashfs_fs ok r m) = 0 ->
    let m' := exit_squashfs_fs (snd (init_squashfs_fs ok r m)) in
    let c := next_block m in
    mlog m'
    = mlog m ++ [Cache_create c; Fs_register; Fs_unregister; Cache_destroy c]
    /\ mfault m' = mfault m
    /\ registered (mlog m') = false
    /\ cache_live c (mlog m') = false.
Proof.
  intros ok r m Hfresh Hret m' c. subst c m'.
  apply N.eqb_neq in Hfresh. revert Hret.
  unfold exit_squashfs_fs, unregister_filesystem, init_squashfs_fs,
    init_inodecache, kmem_cache_create, register_filesystem,
    destroy_inodecache, kmem_cache_destroy.
  destruct ok; cbn -[cache_live registered];
    [rewrite Hfresh; cbn -[cache_live registered];
     destruct (Z.eqb_spec r 0) as [->|Hr]; cbn -[cache_live registered]|];
    intros Hret; try congruence; try discriminate Hret.
  repeat (rewrite ?registered_app, ?cache_live_app, ?N.eqb_refl;
          cbn -[cache_live registered]).
  rewrite !orb_false_r, <- !app_assoc.
  repeat split.
Qed.

Lemma exit_undoes_init_witness :
  next_block unloaded <> NULL
  /\ fst (init_squashfs_fs true 0 unloaded) = 0
  /\ mlog (exit_squashfs_fs (snd (init_squashfs_fs true 0 unloaded)))
     = [Cache_create 1; Fs_register; Fs_unregister; Cache_destroy 1].
Proof.
  assert (H1 : next_block unloaded <> NULL) by discriminate.
  assert (H2 : fst (init_squashfs_fs true 0 unloaded) = 0) by reflexivity.
  exact (conj H1 (conj H2 (proj1 (exit_undoes_init true 0 unloaded H1 H2)))).
Defined.

(** While the inode cache exists, [squashfs_alloc_inode] hands out the
    [vfs_inode] member of a fresh object of the cache, or [NULL], not
    the offset of the member, when the cache has no object to give;
    [squashfs_destroy_inode] gives the object of an inode back to the
    cache, and the pair leaves no object behind and raises no fault. *)
Theorem alloc_inode_destroy_inode :
  forall (vfs_inode_offset : N) (SQUASHFS_I : N -> N) (ok : bool)
         (m0 : module_state),
    (forall ei, SQUASHFS_I (ei + vfs_inode_offset)%N = ei) ->
    cache_live (squashfs_inode_cachep m0) (mlog m0) = true ->
    next_block m0 <> NULL ->
    let res := squashfs_alloc_inode vfs_inode_offset ok m0 in
    let inode := fst res in
    let m := squashfs_destroy_inode SQUASHFS_I inode (snd res) in
    let c := squashfs_inode_cachep m0 in
    let ei := next_block m0 in
    (inode = NULL <-> ok = false)
    /\ (ok = false -> snd res = m0)
    /\ (ok = true ->
        inode = (ei + vfs_inode_offset)%N
        /\ object_live c ei (mlog (snd res)) = true
        /\ mlog m = mlog m0 ++ [Object_alloc c ei; Object_free c ei]
        /\ object_live c ei (mlog m) = false
        /\ mfault m = mfault m0).
Proof.
  intros off SQUASHFS_I ok m0 Hinv Hlive Hfresh res inode m c ei.
  subst ei c m inode res.
  pose proof Hfresh as Hnz. apply N.eqb_neq in Hfresh.
  unfold squashfs_destroy_inode, squashfs_alloc_inode, kmem_cache_alloc,
    kmem_cache_free.
  rewrite Hlive. destruct ok; cbn -[N.add object_live].
  - rewrite Hfresh. cbn -[N.add object_live].
    rewrite Hinv, !object_live_app, !N.eqb_refl.
    cbn -[N.add]. rewrite !orb_false_r, <- app_assoc.
    repeat split; try reflexivity; try discriminate.
    unfold NULL in *. intros Hz. lia.
  - repeat split; try reflexivity; discriminate.
Qed.

Lemma alloc_inode_destroy_inode_witness :
  (forall ei, (ei + 16 - 16)%N = ei)
  /\ cache_live
       (squashfs_inode_cachep (snd (init_squashfs_fs true 0 unloaded)))
       (mlog (snd (init_squashfs_fs true 0 unloaded))) = true
  /\ next_block (snd (init_squashfs_fs true 0 unloaded)) <> NULL
  /\ fst (squashfs_alloc_inode 16 true
            (snd (init_squashfs_fs true 0 unloaded))) = 18%N.
Proof.
  assert (Hinv : forall ei, (fun inode => inode - 16)%N (ei + 16)%N = ei)
    by (intros ei; cbv beta; lia).
  assert (H2 : cache_live
                 (squashfs_inode_cachep
                    (snd (init_squashfs_fs true 0 unloaded)))
                 (mlog (snd (init_squashfs_fs true 0 unloaded))) = true)
    by reflexivity.
  assert (H3 : next_block (snd (init_squashfs_fs true 0 unloaded)) <> NULL)
    by discriminate.
  refine (conj Hinv (conj H2 (conj H3 _))).
  exact (proj1 ((proj2 (proj2 (alloc_inode_destroy_inode 16
                                 (fun inode => inode - 16)%N true _
                                 Hinv H2 H3)))
                  eq_refl)).
Defined.
